(** * youtube_trending.py: fetch, filter and display trending videos

    A shallow embedding of [src/youtube_trending.py] and the properties of
    its four stages (client builder, fetcher, time filter, presenter) and of
    the orchestrator [main].

    Effects are explicit.  A computation is a function on a [world] that
    records what was written to standard output (one entry for each call of
    [print]) and which API requests were executed; it ends by returning a
    value or by raising a Python exception. *)

From Stdlib Require Import ZArith Lia Bool Ascii.
From stdpp Require Import base list strings pretty.

Local Open Scope Z_scope.

(** ** Exceptions and outcomes *)

(** The exception classes that the program raises, catches or lets through.
    [TransportError name] stands for an exception of the HTTP transport that
    is not a [googleapiclient.errors.HttpError] (for example
    [httplib2.ServerNotFoundError] or [socket.timeout]). *)
Inductive exn_class :=
  | ValueError
  | TypeError
  | OverflowError
  | HttpError
  | TransportError (name : string).

(** An exception object: its class and [str(e)]. *)
Record exn := Exn { exn_cls : exn_class; exn_msg : string }.

Definition exn_class_eqb (a b : exn_class) : bool :=
  match a, b with
  | ValueError, ValueError => true
  | TypeError, TypeError => true
  | OverflowError, OverflowError => true
  | HttpError, HttpError => true
  | TransportError n, TransportError m => String.eqb n m
  | _, _ => false
  end.

Inductive outcome (A : Type) :=
  | Returned (a : A)
  | Raised (e : exn).
Arguments Returned {A} a.
Arguments Raised {A} e.

(** ** Data model *)

(** A video item of the API's [videos.list] response.  The program reads
    [item["id"]], [item["snippet"]["title"]] and
    [item["snippet"]["publishedAt"]], always through [dict.get], so each may
    be absent; the API types all three as strings.  [other_fields] are the
    keys the program never reads ([contentDetails], [statistics], ...). *)
Record Snippet := { title : option string; publishedAt : option string }.

Record Video := {
  video_id : option string;
  snippet : option Snippet;
  other_fields : list (string * string)
}.

(** [{}], the default of [video.get("snippet", {})]. *)
Definition empty_snippet : Snippet := {| title := None; publishedAt := None |}.

(** [video.get("snippet", {})] *)
Definition get_snippet (video : Video) : Snippet :=
  match snippet video with Some s => s | None => empty_snippet end.

(** The keyword arguments of [youtube.videos().list(...)]. *)
Record request := {
  part : string;
  chart : string;
  regionCode : string;
  maxResults : Z
}.

(** The decoded response body; [response.get("items", [])] reads it. *)
Record response := { items : option (list Video) }.

(** The service handle, seen through the one thing done with it: executing a
    request gives a response or raises. *)
Definition youtube := request -> outcome response.

(** A [datetime.datetime]: aware (with a UTC offset, kept as its UTC instant
    in microseconds since 0001-01-01T00:00:00Z) or naive (no offset, kept as
    its wall-clock reading in the same unit). *)
Inductive datetime :=
  | Aware (utc_us : Z)
  | Naive (local_us : Z).

(** The surroundings of one run of the program. *)
Record env := {
  API_KEY : option string;
    (* os.getenv("YOUTUBE_API_KEY") *)
  utcnow : Z;
    (* datetime.datetime.now(datetime.timezone.utc), in microseconds since
       0001-01-01T00:00:00Z *)
  fromisoformat : string -> outcome datetime;
    (* datetime.datetime.fromisoformat: a datetime, or ValueError *)
  build : string -> string -> string -> option youtube
    (* googleapiclient.discovery.build(name, version, developerKey=key);
       [None] is a handle that tests false *)
}.

(** ** The effect monad *)

Record world := World { stdout : list string; requests : list request }.

Definition empty_world : world := World [] [].

Definition M (A : Type) : Type := world -> outcome A * world.

Definition ret {A} (a : A) : M A := fun w => (Returned a, w).

Definition bind {A B} (m : M A) (k : A -> M B) : M B :=
  fun w => match m w with
           | (Returned a, w') => k a w'
           | (Raised e, w') => (Raised e, w')
           end.

Definition raise {A} (e : exn) : M A := fun w => (Raised e, w).

(** [print(s)]: one more entry on standard output. *)
Definition print (s : string) : M unit :=
  fun w => (Returned tt, World (stdout w ++ [s]) (requests w)).

(** [request.execute()]: the request goes out, then the handle answers. *)
Definition execute (yt : youtube) (rq : request) : M response :=
  fun w => (yt rq, World (stdout w) (requests w ++ [rq])).

(** A pure step that may raise. *)
Definition lift {A} (o : outcome A) : M A := fun w => (o, w).

(** [try: body / except cls as e: handler]: an exception of another class
    passes through. *)
Definition try_except {A} (body : M A) (cls : exn_class) (handler : exn -> M A) : M A :=
  fun w => match body w with
           | (Returned a, w') => (Returned a, w')
           | (Raised e, w') =>
               if exn_class_eqb (exn_cls e) cls then handler e w' else (Raised e, w')
           end.

Declare Scope py_scope.
Delimit Scope py_scope with py.
Notation "x <- m ;; k" := (bind m (fun x => k))
  (at level 100, m at next level, right associativity) : py_scope.
Notation "m ;;; k" := (bind m (fun _ => k))
  (at level 100, right associativity) : py_scope.
Local Open Scope py_scope.

(** [for x in xs: acc = body(acc, x)], stopping at the first exception. *)
Fixpoint for_each {A S} (xs : list A) (acc : S) (body : S -> A -> M S) : M S :=
  match xs with
  | [] => ret acc
  | x :: xs' => acc' <- body acc x ;; for_each xs' acc' body
  end.

(** ** Strings *)

Definition newline : string := String (ascii_of_nat 10) EmptyString.
Definition quote1 : ascii := ascii_of_nat 39.
Definition quote2 : ascii := ascii_of_nat 34.
Definition backslash : ascii := ascii_of_nat 92.

(** [s.endswith(suffix)] *)
Fixpoint endswith (s suffix : string) : bool :=
  String.eqb s suffix
  || match s with
     | EmptyString => false
     | String _ s' => endswith s' suffix
     end.

(** [s[:-1]] *)
Fixpoint drop_last (s : string) : string :=
  match s with
  | EmptyString => EmptyString
  | String _ EmptyString => EmptyString
  | String c s' => String c (drop_last s')
  end.

(** [sub in s] *)
Fixpoint contains (sub s : string) : bool :=
  String.prefix sub s
  || match s with
     | EmptyString => false
     | String _ s' => contains sub s'
     end.

(** [c * n] for a one-character string [c] *)
Fixpoint repeat_char (c : ascii) (n : nat) : string :=
  match n with
  | O => EmptyString
  | S n' => String c (repeat_char c n')
  end.

(** [str(n)] for an [int] *)
Definition str_int (n : Z) : string := pretty n.

(** Truth value of a string: the empty string tests false. *)
Definition truthy (s : string) : bool := negb (String.eqb s "").

(** [repr(s)] for a string, as it appears in the messages of [ValueError]:
    single quotes unless the string has a single quote and no double quote;
    the quote, the backslash and control characters escaped. *)
Definition hex_digit (n : nat) : ascii :=
  ascii_of_nat (if (n <? 10)%nat then 48 + n else 87 + n).

Definition repr_char (q c : ascii) : string :=
  let n := nat_of_ascii c in
  if Ascii.eqb c backslash then String backslash (String backslash EmptyString)
  else if Ascii.eqb c q then String backslash (String q EmptyString)
  else if (n =? 10)%nat then String backslash "n"
  else if (n =? 13)%nat then String backslash "r"
  else if (n =? 9)%nat then String backslash "t"
  else if (n <? 32)%nat || (n =? 127)%nat then
    String backslash
      (String "x" (String (hex_digit (n / 16)) (String (hex_digit (n mod 16)) EmptyString)))
  else String c EmptyString.

Fixpoint repr_body (q : ascii) (s : string) : string :=
  match s with
  | EmptyString => EmptyString
  | String c s' => repr_char q c +:+ repr_body q s'
  end.

Definition py_repr (s : string) : string :=
  let q :=
    if contains (String quote1 EmptyString) s && negb (contains (String quote2 EmptyString) s)
    then quote2 else quote1 in
  String q (repr_body q s +:+ String q EmptyString).

(** ** Calendar arithmetic of the [datetime] module *)

(** These follow [_is_leap], [_days_before_year], [_days_in_month],
    [_days_before_month] and [_ymd2ord] of the standard library. *)
Definition is_leap (year : Z) : bool :=
  (year mod 4 =? 0) && (negb (year mod 100 =? 0) || (year mod 400 =? 0)).

Definition days_before_year (year : Z) : Z :=
  let y := year - 1 in y * 365 + y / 4 - y / 100 + y / 400.

Definition DAYS_IN_MONTH : list Z := [0; 31; 28; 31; 30; 31; 30; 31; 31; 30; 31; 30; 31].

Definition DAYS_BEFORE_MONTH : list Z :=
  [0; 0; 31; 59; 90; 120; 151; 181; 212; 243; 273; 304; 334].

Definition days_in_month (year month : Z) : Z :=
  if (month =? 2) && is_leap year then 29
  else default 0 (DAYS_IN_MONTH !! Z.to_nat month).

Definition days_before_month (year month : Z) : Z :=
  default 0 (DAYS_BEFORE_MONTH !! Z.to_nat month)
  + (if (2 <? month) && is_leap year then 1 else 0).

Definition ymd2ord (year month day : Z) : Z :=
  days_before_year year + days_before_month year month + day.

Definition US_PER_SECOND : Z := 1000000.
Definition US_PER_HOUR : Z := 3600 * US_PER_SECOND.
Definition US_PER_DAY : Z := 24 * US_PER_HOUR.

(** The instant of a calendar date and wall-clock time at offset zero, in
    microseconds since 0001-01-01T00:00:00. *)
Definition instant (year month day hour minute second microsecond : Z) : Z :=
  (ymd2ord year month day - 1) * US_PER_DAY
  + hour * US_PER_HOUR + minute * 60 * US_PER_SECOND + second * US_PER_SECOND
  + microsecond.

(** One past [datetime.max] (9999-12-31T23:59:59.999999). *)
Definition MAX_INSTANT : Z := 3652059 * US_PER_DAY.

(** [now - datetime.timedelta(hours=hours)]: the timedelta, or the
    difference, may leave the range of [datetime]; every such path raises
    [OverflowError]. *)
Definition datetime_sub_hours (now hours : Z) : outcome Z :=
  let t := now - hours * US_PER_HOUR in
  if (0 <=? t) && (t <? MAX_INSTANT) then Returned t
  else Raised (Exn OverflowError "date value out of range").

(** [dt >= threshold] for an aware [threshold]: aware datetimes compare by
    instant; a naive one cannot be compared with an aware one. *)
Definition datetime_ge (dt : datetime) (threshold : Z) : outcome bool :=
  match dt with
  | Aware t => Returned (threshold <=? t)
  | Naive _ =>
      Raised (Exn TypeError "can't compare offset-naive and offset-aware datetimes")
  end.

(** ** A model of [datetime.datetime.fromisoformat]

    The standard library function is not part of the repository.  This
    model reads the format that [datetime.isoformat()] writes and that every
    CPython since 3.7 accepts,
    [YYYY-MM-DD[*HH[:MM[:SS[.fff[fff]]]][+HH:MM[:SS[.ffffff]]]]], with ASCII
    digits only; it rejects everything else with the library's message.  The
    general theorems below hold for any parser; this one serves the
    worked examples. *)

Definition digit_value (c : ascii) : option Z :=
  let n := nat_of_ascii c in
  if (48 <=? n)%nat && (n <=? 57)%nat then Some (Z.of_nat (n - 48)) else None.

(** Exactly [n] digits, then the rest of the string. *)
Fixpoint take_digits (n : nat) (s : string) (acc : Z) : option (Z * string) :=
  match n with
  | O => Some (acc, s)
  | S n' =>
      match s with
      | EmptyString => None
      | String c s' => d ← digit_value c; take_digits n' s' (acc * 10 + d)
      end
  end.

Definition expect (c : ascii) (s : string) : option string :=
  match s with
  | String c' s' => if Ascii.eqb c c' then Some s' else None
  | EmptyString => None
  end.

Definition parse_isoformat_date (s : string) : option (Z * Z * Z * string) :=
  '(year, s) ← take_digits 4 s 0;
  s ← expect "-" s;
  '(month, s) ← take_digits 2 s 0;
  s ← expect "-" s;
  '(day, s) ← take_digits 2 s 0;
  Some (year, month, day, s).

(** The fraction [.fff] or [.ffffff], in microseconds. *)
Definition parse_fraction (s : string) : option Z :=
  match String.length s with
  | 3%nat => '(f, _) ← take_digits 3 s 0; Some (f * 1000)
  | 6%nat => '(f, _) ← take_digits 6 s 0; Some f
  | _ => None
  end.

(** [HH[:MM[:SS[.fff[fff]]]]], the whole string. *)
Definition parse_hh_mm_ss_ff (s : string) : option (Z * Z * Z * Z) :=
  '(hh, s) ← take_digits 2 s 0;
  match s with
  | EmptyString => Some (hh, 0, 0, 0)
  | String _ _ =>
      s ← expect ":" s;
      '(mm, s) ← take_digits 2 s 0;
      match s with
      | EmptyString => Some (hh, mm, 0, 0)
      | String _ _ =>
          s ← expect ":" s;
          '(ss, s) ← take_digits 2 s 0;
          match s with
          | EmptyString => Some (hh, mm, ss, 0)
          | String _ _ => s ← expect "." s; ff ← parse_fraction s; Some (hh, mm, ss, ff)
          end
      end
  end.

(** The time string cut at its first [+] or [-]: the time, and the sign
    (1 or -1) with the offset string when there is one. *)
Fixpoint split_offset (s : string) : string * option (Z * string) :=
  match s with
  | EmptyString => (EmptyString, None)
  | String c s' =>
      if Ascii.eqb c "+" then (EmptyString, Some (1, s'))
      else if Ascii.eqb c "-" then (EmptyString, Some (-1, s'))
      else let '(t, o) := split_offset s' in (String c t, o)
  end.

(** The time of day and the UTC offset in microseconds, when one is
    written.  An offset string has 5, 8 or 15 characters and stays strictly
    within a day. *)
Definition parse_isoformat_time (tstr : string) : option (Z * Z * Z * Z * option Z) :=
  let '(timestr, off) := split_offset tstr in
  '(hh, mm, ss, ff) ← parse_hh_mm_ss_ff timestr;
  match off with
  | None => Some (hh, mm, ss, ff, None)
  | Some (sign, tzstr) =>
      let n := String.length tzstr in
      if (n =? 5)%nat || (n =? 8)%nat || (n =? 15)%nat then
        '(th, tm, ts, tf) ← parse_hh_mm_ss_ff tzstr;
        let offset := sign * (th * US_PER_HOUR + tm * 60 * US_PER_SECOND + ts * US_PER_SECOND + tf) in
        if (- US_PER_DAY <? offset) && (offset <? US_PER_DAY)
        then Some (hh, mm, ss, ff, Some offset) else None
      else None
  end.

Definition value_error {A} (msg : string) : outcome A := Raised (Exn ValueError msg).

Definition datetime_fromisoformat (date_string : string) : outcome datetime :=
  let invalid := value_error ("Invalid isoformat string: " +:+ py_repr date_string) in
  match parse_isoformat_date date_string with
  | None => invalid
  | Some (year, month, day, rest) =>
      let time_components :=
        match rest with
        | EmptyString | String _ EmptyString => Some (0, 0, 0, 0, None)
        | String _ tstr => parse_isoformat_time tstr
        end in
      match time_components with
      | None => invalid
      | Some (hh, mm, ss, ff, tz) =>
          if year =? 0 then value_error "year 0 is out of range"
          else if negb ((1 <=? month) && (month <=? 12)) then
            value_error "month must be in 1..12"
          else if negb ((1 <=? day) && (day <=? days_in_month year month)) then
            value_error "day is out of range for month"
          else if negb (hh <? 24) then value_error "hour must be in 0..23"
          else if negb (mm <? 60) then value_error "minute must be in 0..59"
          else if negb (ss <? 60) then value_error "second must be in 0..59"
          else
            let local := instant year month day hh mm ss ff in
            match tz with
            | None => Returned (Naive local)
            | Some offset => Returned (Aware (local - offset))
            end
      end
  end.

(** ** The program *)

Definition API_SERVICE_NAME : string := "youtube".
Definition API_VERSION : string := "v3".
Definition DEFAULT_REGION_CODE : string := "US".
Definition HOURS_TO_FILTER : Z := 12.
Definition MAX_RESULTS_TO_FETCH : Z := 25.

(** [videos[:n]] *)
Definition slice_to {A} (l : list A) (n : Z) : list A :=
  if 0 <=? n then take (Z.to_nat n) l
  else take (Z.to_nat (Z.of_nat (length l) + n)) l.

(** [enumerate(l)], counting from [i] *)
Fixpoint enumerate {A} (i : Z) (l : list A) : list (Z * A) :=
  match l with
  | [] => []
  | x :: l' => (i, x) :: enumerate (i + 1) l'
  end.

(** The string handed to the parser: a final [Z] becomes [+00:00]. *)
Definition normalize_zulu (published_at_str : string) : string :=
  if endswith published_at_str "Z"
  then drop_last published_at_str +:+ "+00:00"
  else published_at_str.

(** The line printed when a timestamp does not parse. *)
Definition parse_error_line (published_at_str : string) (video : Video) (e : exn) : string :=
  "Error parsing date string '" +:+ published_at_str +:+ "' for video ID '"
  +:+ default "N/A" (video_id video) +:+ "': " +:+ exn_msg e.

(** The header printed by [display_videos]. *)
Definition header_line (num_to_display display_hours : Z) (display_region : string) : string :=
  newline +:+ "Top " +:+ str_int num_to_display +:+ " YouTube Videos from the Last "
  +:+ str_int display_hours +:+ " Hours (Region: " +:+ display_region +:+ "):".

Definition video_title (video : Video) : string :=
  default "No Title" (title (get_snippet video)).

Definition video_url (video : Video) : string :=
  "https://www.youtube.com/watch?v=" +:+ default "" (video_id video).

(** The two lines printed for the video at index [i]. *)
Definition entry_lines (i : Z) (video : Video) : list string :=
  [str_int (i + 1) +:+ ". " +:+ video_title video;
   "   Link: " +:+ video_url video +:+ newline].

Record Args := { region : string; hours : Z; fetch : Z; count : Z }.

(** The values [argparse] gives when no flag is passed. *)
Definition default_args : Args :=
  {| region := DEFAULT_REGION_CODE; hours := HOURS_TO_FILTER;
     fetch := MAX_RESULTS_TO_FETCH; count := 5 |}.

Section Program.

Variable E : env.

Definition get_youtube_service : M (option youtube) :=
  match API_KEY E with
  | Some key =>
      if truthy key then ret (build E API_SERVICE_NAME API_VERSION key)
      else raise (Exn ValueError
        "API key not found. Please set YOUTUBE_API_KEY in your .env file or environment.")
  | None =>
      raise (Exn ValueError
        "API key not found. Please set YOUTUBE_API_KEY in your .env file or environment.")
  end.

Definition fetch_popular_videos (yt : youtube) (region_code : string) (max_results : Z)
  : M (list Video) :=
  try_except
    (let request :=
       {| part := "snippet,contentDetails,statistics";
          chart := "mostPopular";
          regionCode := region_code;
          maxResults := max_results |} in
     response <- execute yt request ;;
     ret (default [] (items response)))
    HttpError
    (fun e => print ("An API error occurred: " +:+ exn_msg e) ;;; ret []).

(** The body of the loop of [filter_videos_by_time] for one video.  The
    rebinding of [published_at_str] sits inside the [try] of the source; it
    cannot raise and the handler reads the rebound variable, so it is bound
    here ahead of the [try]. *)
Definition filter_step (time_threshold : Z) (filtered_videos : list Video) (video : Video)
  : M (list Video) :=
  match publishedAt (get_snippet video) with
  | Some published_at_str =>
      if truthy published_at_str then
        let published_at_str := normalize_zulu published_at_str in
        try_except
          (published_at_dt <- lift (fromisoformat E published_at_str) ;;
           recent <- lift (datetime_ge published_at_dt time_threshold) ;;
           if (recent : bool) then ret (filtered_videos ++ [video]) else ret filtered_videos)
          ValueError
          (fun e => print (parse_error_line published_at_str video e) ;;; ret filtered_videos)
      else ret filtered_videos
  | None => ret filtered_videos
  end.

Definition filter_videos_by_time (videos : list Video) (hours : option Z) : M (list Video) :=
  let hours := default HOURS_TO_FILTER hours in
  let now := utcnow E in
  time_threshold <- lift (datetime_sub_hours now hours) ;;
  for_each videos [] (filter_step time_threshold).

Definition display_videos (videos : list Video) (count : Z) (display_hours : Z)
    (display_region : string) : M unit :=
  match videos with
  | [] => print "No videos found matching the criteria."
  | _ :: _ =>
      let num_to_display := Z.min (Z.of_nat (length videos)) count in
      print (header_line num_to_display display_hours display_region) ;;;
      print (repeat_char "-" 80) ;;;
      for_each (enumerate 0 (slice_to videos num_to_display)) tt
        (fun _ '(i, video) =>
           print (str_int (i + 1) +:+ ". " +:+ video_title video) ;;;
           print ("   Link: " +:+ video_url video +:+ newline))
  end.

Definition main (args : Args) : M unit :=
  youtube_service <-
    try_except (yt <- get_youtube_service ;; ret (Some yt))
      ValueError (fun e => print (exn_msg e) ;;; ret None) ;;
  match youtube_service with
  | None => ret tt
  | Some None => print "Failed to get YouTube service. Exiting."
  | Some (Some yt) =>
      videos <- fetch_popular_videos yt (region args) (fetch args) ;;
      match videos with
      | [] => print ("No popular videos found for region " +:+ region args +:+ ".")
      | _ :: _ =>
          filtered_videos <- filter_videos_by_time videos (Some (hours args)) ;;
          match filtered_videos with
          | [] =>
              print ("No videos found published in the last " +:+ str_int (hours args)
                     +:+ " hours for region " +:+ region args +:+ ".")
          | _ :: _ =>
              display_videos filtered_videos (count args) (hours args) (region args)
          end
      end
  end.

End Program.

(** ** Notions used to state the properties *)

(** The instant the time filter reads off a video: its [publishedAt],
    present and not empty, parsed into an aware datetime after the rewrite of
    a final [Z]. *)
Definition published_instant (E : env) (video : Video) : option Z :=
  match publishedAt (get_snippet video) with
  | Some s =>
      if truthy s then
        match fromisoformat E (normalize_zulu s) with
        | Returned (Aware t) => Some t
        | _ => None
        end
      else None
  | None => None
  end.

(** The video was published at or after the threshold. *)
Definition is_recent (E : env) (threshold : Z) (video : Video) : bool :=
  match published_instant E video with
  | Some t => threshold <=? t
  | None => false
  end.

(** The time filter can handle the video without raising: a timestamp that
    is present and not empty parses into an aware datetime or is rejected
    with [ValueError]. *)
Definition comparable (E : env) (video : Video) : Prop :=
  ∀ s, publishedAt (get_snippet video) = Some s → truthy s = true →
    (∃ t, fromisoformat E (normalize_zulu s) = Returned (Aware t))
    ∨ (∃ msg, fromisoformat E (normalize_zulu s) = Raised (Exn ValueError msg)).

(** ** Worked examples *)

Definition make_video (i : string) (published : string) : Video :=
  {| video_id := Some i;
     snippet := Some {| title := Some ("Video " +:+ i); publishedAt := Some published |};
     other_fields := [] |}.

(** A handle that answers every request with the given items. *)
Definition serving (videos : list Video) : youtube :=
  fun _ => Returned {| items := Some videos |}.

(** A handle whose transport cannot reach the server. *)
Definition unreachable : youtube :=
  fun _ => Raised (Exn (TransportError "httplib2.error.ServerNotFoundError")
                       "Unable to find the server at youtube.googleapis.com").

(** A run at 2024-01-01T06:00:00Z with a credential and the given handle. *)
Definition env_2024 (yt : youtube) : env :=
  {| API_KEY := Some "key";
     utcnow := instant 2024 1 1 6 0 0 0;
     fromisoformat := datetime_fromisoformat;
     build := fun _ _ _ => Some yt |}.

(** The same run without a credential. *)
Definition env_no_key : env :=
  {| API_KEY := None;
     utcnow := instant 2024 1 1 6 0 0 0;
     fromisoformat := datetime_fromisoformat;
     build := fun _ _ _ => Some unreachable |}.

Definition video_midnight : Video := make_video "a" "2024-01-01T00:00:00Z".
Definition video_boundary : Video := make_video "b" "2023-12-31T18:00:00Z".
Definition video_old : Video := make_video "c" "2023-12-31T17:59:59Z".
Definition video_malformed : Video := make_video "m" "xZ".
Definition video_untimed : Video :=
  {| video_id := Some "u"; snippet := None; other_fields := [] |}.

(** A run that asks for the top video only. *)
Definition args_top_one : Args :=
  {| region := "US"; hours := 12; fetch := 25; count := 1 |}.

Definition fetched_example : list Video := [video_old; video_midnight; video_boundary].

(** The world once [fetched_example] has been fetched for [args_top_one]. *)
Definition world_after_fetch : world :=
  World [] [{| part := "snippet,contentDetails,statistics"; chart := "mostPopular";
               regionCode := "US"; maxResults := 25 |}].

(** The request that [fetch_popular_videos] executes for a region code and
    a cap. *)
Definition popular_request (region_code : string) (max_results : Z) : request :=
  {| part := "snippet,contentDetails,statistics"; chart := "mostPopular";
     regionCode := region_code; maxResults := max_results |}.

(** The line the time filter prints for a video, when it prints one: the
    timestamp is present, not empty, and rejected with [ValueError]. *)
Definition diagnostic (E : env) (video : Video) : option string :=
  match publishedAt (get_snippet video) with
  | Some s =>
      if truthy s then
        match fromisoformat E (normalize_zulu s) with
        | Raised e =>
            if exn_class_eqb (exn_cls e) ValueError
            then Some (parse_error_line (normalize_zulu s) video e)
            else None
        | Returned _ => None
        end
      else None
  | None => None
  end.

(** The lines [display_videos] prints for a list that is not empty. *)
Definition display_lines (videos : list Video) (count display_hours : Z)
    (display_region : string) : list string :=
  let n := Z.min (Z.of_nat (length videos)) count in
  header_line n display_hours display_region
  :: repeat_char "-" 80
  :: concat (map (λ '(i, video), entry_lines i video) (enumerate 0 (slice_to videos n))).

(** A video whose timestamp carries no offset. *)
Definition video_naive : Video := make_video "n" "2024-01-01T00:00:00".

(** A handle that the API answers with an HTTP error. *)
Definition forbidden : youtube :=
  fun _ => Raised (Exn HttpError "<HttpError 403 quotaExceeded>").

(** A run in which the client library gives a handle that tests false. *)
Definition env_falsy_handle : env :=
  {| API_KEY := Some "key";
     utcnow := instant 2024 1 1 6 0 0 0;
     fromisoformat := datetime_fromisoformat;
     build := fun _ _ _ => None |}.

(** ** Properties of the monad and of the string helpers *)

Lemma bind_returned {A B} (m : M A) (k : A → M B) w a w' :
  m w = (Returned a, w') → bind m k w = k a w'.
Proof. unfold bind. by intros ->. Qed.

Lemma bind_raised {A B} (m : M A) (k : A → M B) w e w' :
  m w = (Raised e, w') → bind m k w = (Raised e, w').
Proof. unfold bind. by intros ->. Qed.

Lemma for_each_app {A S} (xs ys : list A) (acc : S) body w :
  for_each (xs ++ ys) acc body w
  = bind (for_each xs acc body) (fun acc' => for_each ys acc' body) w.
Proof.
  revert acc w. induction xs as [|x xs IH]; intros acc w; simpl; [reflexivity|].
  unfold bind at 1 2 3. destruct (body acc x w) as [[acc'|e] w1]; [|reflexivity].
  apply IH.
Qed.

(** An element whose turn changes nothing can be left out of the loop. *)
Lemma for_each_skip {A S} (pre post : list A) (x : A) (acc : S) body w :
  (∀ acc w, body acc x w = (Returned acc, w)) →
  for_each (pre ++ x :: post) acc body w = for_each (pre ++ post) acc body w.
Proof.
  intros Hskip. revert acc w.
  induction pre as [|y pre IH]; intros acc w; simpl; unfold bind.
  - by rewrite Hskip.
  - destruct (body acc y w) as [[acc'|e] w1]; [apply IH|done].
Qed.

Lemma prefix_append (sub s : string) : String.prefix sub (sub +:+ s) = true.
Proof.
  induction sub as [|c sub IH]; simpl; [by destruct s|].
  destruct (ascii_dec c c) as [_|Hne]; [exact IH|by destruct Hne].
Qed.

Lemma contains_unfold (sub s : string) :
  contains sub s
  = String.prefix sub s
    || match s with EmptyString => false | String _ s' => contains sub s' end.
Proof. by destruct s. Qed.

Lemma contains_prefix (sub s : string) : contains sub (sub +:+ s) = true.
Proof. rewrite contains_unfold. by rewrite prefix_append. Qed.

Lemma contains_append_l (sub a s : string) :
  contains sub s = true → contains sub (a +:+ s) = true.
Proof.
  intros H. induction a as [|c a IH]; simpl; [done|].
  rewrite IH. apply orb_true_r.
Qed.

Lemma contains_middle (sub a b : string) : contains sub (a +:+ sub +:+ b) = true.
Proof. apply contains_append_l, contains_prefix. Qed.

Lemma endswith_append_Z (s : string) : endswith (s +:+ "Z") "Z" = true.
Proof.
  induction s as [|c s IH]; [done|].
  simpl. simpl in IH. rewrite IH. apply orb_true_r.
Qed.

Lemma drop_last_append_Z (s : string) : drop_last (s +:+ "Z") = s.
Proof.
  induction s as [|c s IH]; [done|].
  simpl. rewrite IH. by destruct s.
Qed.

Lemma endswith_zero_offset (s : string) : endswith (s +:+ "+00:00") "Z" = false.
Proof.
  induction s as [|c s IH]; [done|].
  simpl. simpl in IH. rewrite IH, orb_false_r.
  destruct s; simpl; [|by destruct (Ascii.eqb c "Z")].
  by destruct (Ascii.eqb c "Z").
Qed.

(** ** The time filter *)

Section TimeFilter.

Variable E : env.

Lemma datetime_sub_hours_returned now h t :
  datetime_sub_hours now h = Returned t → t = now - h * US_PER_HOUR.
Proof.
  unfold datetime_sub_hours.
  destruct (_ && _); [|discriminate]. by intros [= <-].
Qed.

(** A video without a usable timestamp leaves the loop state as it is. *)
Lemma filter_step_untimed th acc v w :
  publishedAt (get_snippet v) = None ∨ publishedAt (get_snippet v) = Some "" →
  filter_step E th acc v w = (Returned acc, w).
Proof. unfold filter_step. by intros [-> | ->]. Qed.

(** A timestamp that parses into an aware datetime is compared with the
    threshold. *)
Lemma filter_step_aware th acc v w s t :
  publishedAt (get_snippet v) = Some s → truthy s = true →
  fromisoformat E (normalize_zulu s) = Returned (Aware t) →
  filter_step E th acc v w = (Returned (if th <=? t then acc ++ [v] else acc), w).
Proof.
  intros Hs Htruthy Hparse. unfold filter_step. rewrite Hs, Htruthy.
  unfold try_except, bind, lift. rewrite Hparse. simpl.
  by destruct (th <=? t).
Qed.

(** A timestamp that the parser rejects is reported and the video left
    out. *)
Lemma filter_step_value_error th acc v w s e :
  publishedAt (get_snippet v) = Some s → truthy s = true →
  fromisoformat E (normalize_zulu s) = Raised e → exn_cls e = ValueError →
  filter_step E th acc v w
  = (Returned acc,
     World (stdout w ++ [parse_error_line (normalize_zulu s) v e]) (requests w)).
Proof.
  intros Hs Htruthy Hparse Hcls. unfold filter_step. rewrite Hs, Htruthy.
  unfold try_except, bind, lift. rewrite Hparse, Hcls. reflexivity.
Qed.

(** Whenever a step returns, it has appended the video or not according to
    [is_recent]. *)
Lemma filter_step_returned th acc v w acc' w' :
  filter_step E th acc v w = (Returned acc', w') →
  acc' = acc ++ (if is_recent E th v then [v] else []).
Proof.
  unfold filter_step, is_recent, published_instant.
  destruct (publishedAt (get_snippet v)) as [s|];
    [|intros [= <- <-]; by rewrite app_nil_r].
  destruct (truthy s); [|intros [= <- <-]; by rewrite app_nil_r].
  unfold try_except, bind, lift.
  destruct (fromisoformat E (normalize_zulu s)) as [[t|t]|e]; simpl.
  - destruct (th <=? t); intros [= <- <-]; [done|by rewrite app_nil_r].
  - discriminate.
  - destruct (exn_class_eqb (exn_cls e) ValueError); [|discriminate].
    intros [= <- <-]. by rewrite app_nil_r.
Qed.

Lemma filter_loop_returned th videos acc w out w' :
  for_each videos acc (filter_step E th) w = (Returned out, w') →
  out = acc ++ filter (λ v, is_recent E th v = true) videos.
Proof.
  revert acc w. induction videos as [|v videos IH]; intros acc w; simpl.
  - intros [= <- <-]. by rewrite app_nil_r.
  - unfold bind.
    destruct (filter_step E th acc v w) as [[acc1|e] w1] eqn:Hstep; [|discriminate].
    intros Hloop. apply IH in Hloop as ->.
    apply filter_step_returned in Hstep as ->.
    rewrite <- app_assoc. f_equal.
    destruct (is_recent E th v) eqn:Hrecent.
    + by rewrite filter_cons_True.
    + rewrite filter_cons_False; [done|]. by rewrite Hrecent.
Qed.

(** What the filter returns is the input filtered by [is_recent] at the
    threshold [now - hours]. *)
Lemma filter_videos_by_time_returned videos hours w out w' :
  filter_videos_by_time E videos hours w = (Returned out, w') →
  let threshold := utcnow E - default HOURS_TO_FILTER hours * US_PER_HOUR in
  datetime_sub_hours (utcnow E) (default HOURS_TO_FILTER hours) = Returned threshold
  ∧ out = filter (λ v, is_recent E threshold v = true) videos.
Proof.
  unfold filter_videos_by_time, bind, lift.
  destruct (datetime_sub_hours _ _) as [th|e] eqn:Hth; [|discriminate].
  intros Hloop. simpl.
  pose proof (datetime_sub_hours_returned _ _ _ Hth) as ->.
  split; [done|]. by apply filter_loop_returned in Hloop.
Qed.

(** On comparable videos the loop returns, and it never touches the
    requests. *)
Lemma filter_loop_total th videos acc w :
  Forall (comparable E) videos →
  ∃ out w', for_each videos acc (filter_step E th) w = (Returned out, w')
            ∧ requests w' = requests w.
Proof.
  intros Hall. revert acc w.
  induction Hall as [|v videos Hv _ IH]; intros acc w; simpl.
  - by exists acc, w.
  - assert (∃ acc1 w1, filter_step E th acc v w = (Returned acc1, w1)
                       ∧ requests w1 = requests w) as (acc1 & w1 & Hstep & Hreq).
    { destruct (publishedAt (get_snippet v)) as [s|] eqn:Hs;
        [|eexists _, _; split; [apply filter_step_untimed; by left|done]].
      destruct (truthy s) eqn:Htruthy.
      - destruct (Hv s Hs Htruthy) as [[t Ht] | [msg Hmsg]].
        + eexists _, _. split; [by eapply filter_step_aware|done].
        + eexists _, _. split; [by eapply filter_step_value_error|done].
      - eexists _, _. split; [|done]. unfold filter_step. by rewrite Hs, Htruthy. }
    destruct (IH acc1 w1) as (out & w' & Hloop & Hreq').
    exists out, w'. split; [|congruence].
    unfold bind. by rewrite Hstep.
Qed.

(** The filter returns whenever the threshold is a datetime and every video
    is comparable. *)
Lemma filter_videos_by_time_total videos hours w th :
  datetime_sub_hours (utcnow E) (default HOURS_TO_FILTER hours) = Returned th →
  Forall (comparable E) videos →
  ∃ out w', filter_videos_by_time E videos hours w = (Returned out, w').
Proof.
  intros Hth Hall. unfold filter_videos_by_time, bind, lift. rewrite Hth.
  destruct (filter_loop_total th videos [] w Hall) as (out & w' & Hloop & _).
  by exists out, w'.
Qed.

End TimeFilter.

(** C1: for every list of videos and every window of [h >= 0] hours, what
    [filter_videos_by_time] returns holds no video whose parsed
    [publishedAt] instant lies strictly before [now - h] (every returned
    video has a parsed instant, and it is not earlier than the threshold),
    and the boundary is inclusive: a video of the input published exactly at
    the threshold is returned. *)
Theorem filter_videos_by_time_window E videos h w out w' :
  0 ≤ h →
  filter_videos_by_time E videos (Some h) w = (Returned out, w') →
  let threshold := utcnow E - h * US_PER_HOUR in
  (∀ v, v ∈ out → ∃ t, published_instant E v = Some t ∧ ¬ (t < threshold))
  ∧ (∀ v, v ∈ videos → published_instant E v = Some threshold → v ∈ out).
Proof.
  intros _ Hrun threshold.
  apply filter_videos_by_time_returned in Hrun as [_ ->]. simpl. fold threshold.
  split; intros v.
  - rewrite list_elem_of_filter. unfold is_recent. intros [Hrecent _].
    destruct (published_instant E v) as [t|]; [|discriminate].
    exists t. split; [done|]. apply Z.leb_le in Hrecent. lia.
  - intros Hin Hat. apply list_elem_of_filter. split; [|done].
    unfold is_recent. rewrite Hat. apply Z.leb_refl.
Qed.

Lemma filter_videos_by_time_window_witness :
  let E := env_2024 (serving []) in
  let threshold := utcnow E - 12 * US_PER_HOUR in
  (∀ v, v ∈ [video_midnight; video_boundary] →
     ∃ t, published_instant E v = Some t ∧ ¬ (t < threshold))
  ∧ (∀ v, v ∈ [video_old; video_midnight; video_untimed; video_boundary] →
     published_instant E v = Some threshold → v ∈ [video_midnight; video_boundary]).
Proof.
  apply (filter_videos_by_time_window (env_2024 (serving []))
           [video_old; video_midnight; video_untimed; video_boundary] 12
           empty_world [video_midnight; video_boundary] empty_world).
  - lia.
  - vm_compute. reflexivity.
Defined.

(** C4: for every list of videos and every window, what
    [filter_videos_by_time] returns is a subsequence of the input that keeps
    the input's order; in particular each returned video occurs in the
    input. *)
Theorem filter_videos_by_time_subsequence E videos hours w out w' :
  filter_videos_by_time E videos hours w = (Returned out, w') →
  out `sublist_of` videos ∧ (∀ v, v ∈ out → v ∈ videos).
Proof.
  intros Hrun. apply filter_videos_by_time_returned in Hrun as [_ ->].
  assert (∀ P `{!∀ v : Video, Decision (P v)}, filter P videos `sublist_of` videos)
    as Hsub by (intros; apply sublist_filter).
  split; [apply Hsub|].
  intros v Hv. eapply elem_of_sublist; [exact Hv|apply Hsub].
Qed.

Lemma filter_videos_by_time_subsequence_witness :
  [video_midnight; video_boundary]
    `sublist_of` [video_old; video_midnight; video_malformed; video_boundary]
  ∧ (∀ v, v ∈ [video_midnight; video_boundary] →
          v ∈ [video_old; video_midnight; video_malformed; video_boundary]).
Proof.
  apply (filter_videos_by_time_subsequence (env_2024 (serving []))
           [video_old; video_midnight; video_malformed; video_boundary] (Some 12)
           empty_world [video_midnight; video_boundary]
           (World [parse_error_line "x+00:00" video_malformed
                     (Exn ValueError "Invalid isoformat string: 'x+00:00'")] [])).
  vm_compute. reflexivity.
Defined.

Lemma published_instant_Some E v t :
  published_instant E v = Some t →
  ∃ s, publishedAt (get_snippet v) = Some s ∧ truthy s = true
       ∧ fromisoformat E (normalize_zulu s) = Returned (Aware t).
Proof.
  unfold published_instant.
  destruct (publishedAt (get_snippet v)) as [s|]; [|discriminate].
  destruct (truthy s) eqn:Htruthy; [|discriminate].
  destruct (fromisoformat E (normalize_zulu s)) as [[t'|t']|e] eqn:Hparse;
    try discriminate.
  intros [= ->]. by exists s.
Qed.

(** Videos that are all recent go through the loop untouched and
    unreported. *)
Lemma filter_loop_all_recent E th videos acc w :
  Forall (λ v, is_recent E th v = true) videos →
  for_each videos acc (filter_step E th) w = (Returned (acc ++ videos), w).
Proof.
  intros Hall. revert acc.
  induction Hall as [|v videos Hv _ IH]; intros acc; simpl.
  - by rewrite app_nil_r.
  - unfold is_recent in Hv.
    destruct (published_instant E v) as [t|] eqn:Hat; [|discriminate].
    apply published_instant_Some in Hat as (s & Hs & Htruthy & Hparse).
    unfold bind. rewrite (filter_step_aware E th acc v w s t Hs Htruthy Hparse), Hv.
    rewrite IH. by rewrite <- app_assoc.
Qed.

(** C3, as the code has it: when exactly one video of the input carries a
    timestamp that the parser rejects with [ValueError] and all the others
    lie within the window, [filter_videos_by_time] returns exactly the
    others (one fewer than the input), in order, without raising, and prints
    one diagnostic.  The diagnostic holds the string that was handed to the
    parser, which is the malformed value with a final [Z] rewritten to
    [+00:00], and the video's id, or [N/A] when the video has none. *)
Theorem filter_videos_by_time_one_malformed E pre bad post hours w threshold s e :
  datetime_sub_hours (utcnow E) (default HOURS_TO_FILTER hours) = Returned threshold →
  Forall (λ v, is_recent E threshold v = true) (pre ++ post) →
  publishedAt (get_snippet bad) = Some s → truthy s = true →
  fromisoformat E (normalize_zulu s) = Raised e → exn_cls e = ValueError →
  ∃ line,
    filter_videos_by_time E (pre ++ bad :: post) hours w
    = (Returned (pre ++ post), World (stdout w ++ [line]) (requests w))
    ∧ S (length (pre ++ post)) = length (pre ++ bad :: post)
    ∧ contains (normalize_zulu s) line = true
    ∧ contains (default "N/A" (video_id bad)) line = true.
Proof.
  intros Hth Hall Hs Htruthy Hparse Hcls.
  apply Forall_app in Hall as [Hpre Hpost].
  exists (parse_error_line (normalize_zulu s) bad e). repeat split.
  - unfold filter_videos_by_time, bind at 1, lift. rewrite Hth.
    rewrite for_each_app. unfold bind at 1.
    rewrite (filter_loop_all_recent E threshold pre [] w Hpre). simpl.
    unfold bind at 1.
    rewrite (filter_step_value_error E threshold pre bad w s e Hs Htruthy Hparse Hcls).
    by rewrite (filter_loop_all_recent E threshold post pre _ Hpost).
  - rewrite !length_app. simpl. lia.
  - unfold parse_error_line. apply contains_middle.
  - unfold parse_error_line. do 3 apply contains_append_l. apply contains_prefix.
Qed.

Lemma filter_videos_by_time_one_malformed_witness :
  ∃ line,
    filter_videos_by_time (env_2024 (serving []))
      ([video_midnight] ++ video_malformed :: [video_boundary]) (Some 12) empty_world
    = (Returned ([video_midnight] ++ [video_boundary]),
       World (stdout empty_world ++ [line]) (requests empty_world))
    ∧ S (length ([video_midnight] ++ [video_boundary]))
      = length ([video_midnight] ++ video_malformed :: [video_boundary])
    ∧ contains (normalize_zulu "xZ") line = true
    ∧ contains (default "N/A" (video_id video_malformed)) line = true.
Proof.
  apply (filter_videos_by_time_one_malformed (env_2024 (serving []))
           [video_midnight] video_malformed [video_boundary] (Some 12) empty_world
           (instant 2023 12 31 18 0 0 0) "xZ"
           (Exn ValueError "Invalid isoformat string: 'x+00:00'")).
  - vm_compute. reflexivity.
  - repeat constructor.
  - reflexivity.
  - reflexivity.
  - vm_compute. reflexivity.
  - reflexivity.
Defined.

(** C3 as it was stated fails: for the malformed value [xZ] the one
    diagnostic that is printed does not hold the value [xZ]. *)
Lemma malformed_value_not_in_diagnostic :
  publishedAt (get_snippet video_malformed) = Some "xZ"
  ∧ ∃ line,
      filter_videos_by_time (env_2024 (serving [])) [video_malformed] (Some 12) empty_world
      = (Returned [], World [line] [])
      ∧ contains "xZ" line = false.
Proof.
  split; [reflexivity|].
  eexists. split; vm_compute; reflexivity.
Qed.

(** C10: a video whose [snippet] is missing, whose [publishedAt] is missing
    or whose [publishedAt] is the empty string is dropped in silence: its
    turn in the loop returns with the collected videos and the world as they
    were (nothing printed, nothing raised), the whole call behaves as if the
    video were not in the input, and the video is in no returned list. *)
Theorem filter_videos_by_time_untimed_silent E v :
  snippet v = None ∨ publishedAt (get_snippet v) = None
  ∨ publishedAt (get_snippet v) = Some "" →
  (∀ th acc w, filter_step E th acc v w = (Returned acc, w))
  ∧ (∀ pre post hours w,
       filter_videos_by_time E (pre ++ v :: post) hours w
       = filter_videos_by_time E (pre ++ post) hours w)
  ∧ (∀ videos hours w out w',
       filter_videos_by_time E videos hours w = (Returned out, w') → v ∉ out).
Proof.
  intros Hv.
  assert (publishedAt (get_snippet v) = None ∨ publishedAt (get_snippet v) = Some "")
    as Huntimed.
  { destruct Hv as [Hnone | [Hnone | Hempty]]; [left|by left|by right].
    unfold get_snippet. by rewrite Hnone. }
  assert (∀ th acc w, filter_step E th acc v w = (Returned acc, w)) as Hstep
    by (intros; by apply filter_step_untimed).
  split; [exact Hstep|]. split.
  - intros pre post hours w. unfold filter_videos_by_time, bind, lift.
    destruct (datetime_sub_hours _ _) as [th|e]; [|done].
    apply for_each_skip, Hstep.
  - intros videos hours w out w' Hrun.
    apply filter_videos_by_time_returned in Hrun as [_ ->].
    rewrite list_elem_of_filter. intros [Hrecent _].
    unfold is_recent, published_instant in Hrecent.
    by destruct Huntimed as [Heq | Heq]; rewrite Heq in Hrecent.
Qed.

Lemma filter_videos_by_time_untimed_silent_witness :
  (∀ th acc w,
     filter_step (env_2024 (serving [])) th acc video_untimed w = (Returned acc, w))
  ∧ (∀ pre post hours w,
       filter_videos_by_time (env_2024 (serving [])) (pre ++ video_untimed :: post) hours w
       = filter_videos_by_time (env_2024 (serving [])) (pre ++ post) hours w)
  ∧ (∀ videos hours w out w',
       filter_videos_by_time (env_2024 (serving [])) videos hours w = (Returned out, w') →
       video_untimed ∉ out).
Proof.
  apply (filter_videos_by_time_untimed_silent (env_2024 (serving [])) video_untimed).
  left. reflexivity.
Defined.

(** C8: a final [Z] on [publishedAt] counts as the offset [+00:00]: the
    string handed to the parser is the same for both spellings, so both give
    the same instant whatever the parser; and the video published at
    2024-01-01T00:00:00Z, filtered with a window of 12 hours at
    2024-01-01T06:00:00Z, is parsed and returned, as is the one published
    exactly 12 hours before the current instant, while one a second older is
    not. *)
Theorem zulu_suffix_is_zero_offset :
  (∀ s, normalize_zulu (s +:+ "Z") = s +:+ "+00:00"
        ∧ normalize_zulu (s +:+ "+00:00") = s +:+ "+00:00")
  ∧ (∀ E i t o s,
       published_instant E
         {| video_id := i; snippet := Some {| title := t; publishedAt := Some (s +:+ "Z") |};
            other_fields := o |}
       = published_instant E
           {| video_id := i;
              snippet := Some {| title := t; publishedAt := Some (s +:+ "+00:00") |};
              other_fields := o |})
  ∧ publishedAt (get_snippet video_midnight) = Some "2024-01-01T00:00:00Z"
  ∧ published_instant (env_2024 (serving [])) video_midnight
    = Some (instant 2024 1 1 0 0 0 0)
  ∧ filter_videos_by_time (env_2024 (serving [])) [video_midnight] (Some 12) empty_world
    = (Returned [video_midnight], empty_world)
  ∧ filter_videos_by_time (env_2024 (serving []))
      [video_old; video_boundary; video_midnight] (Some 12) empty_world
    = (Returned [video_boundary; video_midnight], empty_world).
Proof.
  assert (∀ s, normalize_zulu (s +:+ "Z") = s +:+ "+00:00"
               ∧ normalize_zulu (s +:+ "+00:00") = s +:+ "+00:00") as Hnorm.
  { intros s. unfold normalize_zulu.
    by rewrite endswith_append_Z, drop_last_append_Z, endswith_zero_offset. }
  split; [exact Hnorm|]. split.
  - intros E i t o s. unfold published_instant. simpl.
    destruct (Hnorm s) as [-> ->].
    assert (∀ suffix, suffix ≠ "" → truthy (s +:+ suffix) = true) as Htruthy.
    { intros suffix Hne. destruct s; [|done]. simpl. by destruct suffix. }
    by rewrite !Htruthy.
  - repeat split; vm_compute; reflexivity.
Qed.

(** ** The fetcher *)

(** The request that [fetch_popular_videos] builds. *)
Lemma fetch_popular_videos_returned yt region_code max_results w resp :
  yt {| part := "snippet,contentDetails,statistics"; chart := "mostPopular";
        regionCode := region_code; maxResults := max_results |} = Returned resp →
  fetch_popular_videos yt region_code max_results w
  = (Returned (default [] (items resp)),
     World (stdout w)
       (requests w ++ [{| part := "snippet,contentDetails,statistics";
                          chart := "mostPopular";
                          regionCode := region_code; maxResults := max_results |}])).
Proof.
  intros Hyt. unfold fetch_popular_videos, try_except, bind, execute. by rewrite Hyt.
Qed.

(** An [HttpError] of the API is reported and turned into the empty list. *)
Lemma fetch_popular_videos_http_error yt region_code max_results w e :
  yt {| part := "snippet,contentDetails,statistics"; chart := "mostPopular";
        regionCode := region_code; maxResults := max_results |} = Raised e →
  exn_cls e = HttpError →
  fetch_popular_videos yt region_code max_results w
  = (Returned [],
     World (stdout w ++ ["An API error occurred: " +:+ exn_msg e])
       (requests w ++ [{| part := "snippet,contentDetails,statistics";
                          chart := "mostPopular";
                          regionCode := region_code; maxResults := max_results |}])).
Proof.
  intros Hyt Hcls. unfold fetch_popular_videos, try_except, bind, execute.
  by rewrite Hyt, Hcls.
Qed.

(** C2, where the code departs from it: when the request fails in the
    transport, with an exception that is not an [HttpError] (here the server
    cannot be found), [fetch_popular_videos] neither reports it nor returns
    the empty list: the exception reaches the caller, for every region code
    and every [max_results]. *)
Theorem fetch_popular_videos_transport_error_propagates region_code max_results w :
  fetch_popular_videos unreachable region_code max_results w
  = (Raised (Exn (TransportError "httplib2.error.ServerNotFoundError")
                 "Unable to find the server at youtube.googleapis.com"),
     World (stdout w)
       (requests w ++ [{| part := "snippet,contentDetails,statistics";
                          chart := "mostPopular";
                          regionCode := region_code; maxResults := max_results |}])).
Proof. reflexivity. Qed.

(** ** The presenter *)

Lemma for_each_print {A} (xs : list A) (body : unit → A → M unit)
    (lines : A → list string) w :
  (∀ u x w, body u x w = (Returned tt, World (stdout w ++ lines x) (requests w))) →
  for_each xs tt body w
  = (Returned tt, World (stdout w ++ concat (map lines xs)) (requests w)).
Proof.
  intros Hbody. revert w. induction xs as [|x xs IH]; intros w; simpl.
  - rewrite app_nil_r. by destruct w.
  - unfold bind. rewrite Hbody, IH. simpl. by rewrite <- app_assoc.
Qed.

Lemma slice_to_nonneg {A} (l : list A) (n : Z) :
  0 ≤ n → slice_to l (Z.min (Z.of_nat (length l)) n) = take (Z.to_nat n) l.
Proof.
  intros Hn. unfold slice_to.
  destruct (Z.leb_spec 0 (Z.min (Z.of_nat (length l)) n)); [|lia].
  destruct (Z.le_ge_cases (Z.of_nat (length l)) n).
  - rewrite Z.min_l by done. rewrite Nat2Z.id.
    rewrite !take_ge; [done|lia|lia].
  - by rewrite Z.min_r.
Qed.

Lemma length_enumerate {A} (i : Z) (l : list A) : length (enumerate i l) = length l.
Proof. revert i. induction l as [|x l IH]; intros i; simpl; [done|]. by rewrite IH. Qed.

Lemma enumerate_lookup {A} (i : Z) (l : list A) (k : nat) :
  enumerate i l !! k = (λ x, (i + Z.of_nat k, x)) <$> l !! k.
Proof.
  revert i k. induction l as [|x l IH]; intros i k; [done|].
  destruct k as [|k]; simpl.
  - by rewrite Z.add_0_r.
  - rewrite IH. destruct (l !! k); simpl; [|done]. do 2 f_equal. lia.
Qed.

(** For a list that is not empty and a display count that is not negative,
    [display_videos] prints the header with [n = min(len(videos), count)],
    the rule, and the two lines of each of the first [n] videos, numbered
    from 1 in the order of the input. *)
Lemma display_videos_prints videos count display_hours display_region w :
  videos ≠ [] → 0 ≤ count →
  let n := Z.min (Z.of_nat (length videos)) count in
  display_videos videos count display_hours display_region w
  = (Returned tt,
     World (stdout w
            ++ header_line n display_hours display_region
               :: repeat_char "-" 80
               :: concat (map (λ '(i, video), entry_lines i video)
                            (enumerate 0 (take (Z.to_nat count) videos))))
       (requests w))
  ∧ Z.of_nat (length (enumerate 0 (take (Z.to_nat count) videos))) = n.
Proof.
  intros Hne Hcount n. split.
  - destruct videos as [|v videos]; [done|].
    unfold display_videos. fold n. unfold bind at 1 2, print at 1 2. simpl stdout.
    simpl requests. unfold n. rewrite slice_to_nonneg by done.
    rewrite (for_each_print _ _ (λ '(i, video), entry_lines i video)).
    + simpl. by rewrite <- !app_assoc.
    + intros [] [i video] w0. unfold bind, print, entry_lines. simpl.
      by rewrite <- app_assoc.
  - rewrite length_enumerate, length_take. unfold n. lia.
Qed.

(** With a display count of 5 and 3 videos, exactly 3 entries are printed
    and the header states 3. *)
Lemma display_videos_three_of_five :
  display_videos [video_midnight; video_boundary; video_old] 5 12 "US" empty_world
  = (Returned tt,
     World [newline +:+ "Top 3 YouTube Videos from the Last 12 Hours (Region: US):";
            repeat_char "-" 80;
            "1. Video a"; "   Link: https://www.youtube.com/watch?v=a" +:+ newline;
            "2. Video b"; "   Link: https://www.youtube.com/watch?v=b" +:+ newline;
            "3. Video c"; "   Link: https://www.youtube.com/watch?v=c" +:+ newline] []).
Proof. vm_compute. reflexivity. Qed.

(** C6, where the code departs from it: with 3 videos and a display count
    of -1 the header states [min(3, -1) = -1], and [videos[:-1]] makes the
    loop print 2 entries, so the number of entries is not the [n] of the
    header. *)
Theorem display_videos_negative_count :
  display_videos [video_midnight; video_boundary; video_old] (-1) 12 "US" empty_world
  = (Returned tt,
     World [newline +:+ "Top -1 YouTube Videos from the Last 12 Hours (Region: US):";
            repeat_char "-" 80;
            "1. Video a"; "   Link: https://www.youtube.com/watch?v=a" +:+ newline;
            "2. Video b"; "   Link: https://www.youtube.com/watch?v=b" +:+ newline] []).
Proof. vm_compute. reflexivity. Qed.

(** C7: for the empty list and any display count, [display_videos] prints
    the one line that says no videos were found, nothing else, and
    returns. *)
Theorem display_videos_empty count display_hours display_region w :
  display_videos [] count display_hours display_region w
  = (Returned tt,
     World (stdout w ++ ["No videos found matching the criteria."]) (requests w)).
Proof. reflexivity. Qed.

(** ** The orchestrator *)

(** C5: when the API key is absent or empty, building the client raises the
    configuration error ([ValueError]) before anything else happens; [main]
    catches it, prints its message and returns, and no request has been
    executed: the requests on record are those from before the call. *)
Theorem main_missing_credential E args w :
  API_KEY E = None ∨ API_KEY E = Some "" →
  let message :=
    "API key not found. Please set YOUTUBE_API_KEY in your .env file or environment." in
  get_youtube_service E w = (Raised (Exn ValueError message), w)
  ∧ main E args w = (Returned tt, World (stdout w ++ [message]) (requests w)).
Proof.
  intros Hkey message.
  assert (get_youtube_service E w = (Raised (Exn ValueError message), w)) as Hraise.
  { unfold get_youtube_service. by destruct Hkey as [-> | ->]. }
  split; [exact Hraise|].
  unfold main, bind, try_except. by rewrite Hraise.
Qed.

Lemma main_missing_credential_witness :
  let message :=
    "API key not found. Please set YOUTUBE_API_KEY in your .env file or environment." in
  get_youtube_service env_no_key empty_world
  = (Raised (Exn ValueError message), empty_world)
  ∧ main env_no_key default_args empty_world
    = (Returned tt, World (stdout empty_world ++ [message]) (requests empty_world)).
Proof.
  apply (main_missing_credential env_no_key default_args empty_world).
  left. reflexivity.
Defined.

(** With a credential and a handle, [main] fetches, filters the whole
    fetched list and passes the whole filtered list on. *)
Lemma main_pipeline E args key yt w fetched w1 filtered w2 :
  API_KEY E = Some key → truthy key = true →
  build E API_SERVICE_NAME API_VERSION key = Some yt →
  fetch_popular_videos yt (region args) (fetch args) w = (Returned fetched, w1) →
  filter_videos_by_time E fetched (Some (hours args)) w1 = (Returned filtered, w2) →
  filtered ≠ [] →
  main E args w = display_videos filtered (count args) (hours args) (region args) w2.
Proof.
  intros Hkey Htruthy Hbuild Hfetch Hfilter Hne.
  assert (fetched ≠ []) as Hfetched.
  { intros ->. apply filter_videos_by_time_returned in Hfilter as [_ ->]. done. }
  unfold main, bind at 1, try_except, bind at 1, get_youtube_service.
  rewrite Hkey, Htruthy, Hbuild. unfold ret at 1 2.
  unfold bind at 1. rewrite Hfetch.
  destruct fetched as [|v fetched]; [done|].
  unfold bind at 1. rewrite Hfilter.
  by destruct filtered.
Qed.

(** C9: in [main] the display count is applied only to what the time filter
    returned.  The filtered list is the whole fetched list filtered by
    recency, whatever the count; [display_videos] is called on that whole
    list with the count; and for a count that is not negative the entries
    printed are those of the first [count] videos of the filtered list. *)
Theorem main_display_count_after_filter E args key yt w fetched w1 filtered w2 :
  API_KEY E = Some key → truthy key = true →
  build E API_SERVICE_NAME API_VERSION key = Some yt →
  fetch_popular_videos yt (region args) (fetch args) w = (Returned fetched, w1) →
  filter_videos_by_time E fetched (Some (hours args)) w1 = (Returned filtered, w2) →
  filtered ≠ [] →
  filtered
  = filter (λ v, is_recent E (utcnow E - hours args * US_PER_HOUR) v = true) fetched
  ∧ main E args w = display_videos filtered (count args) (hours args) (region args) w2
  ∧ (0 ≤ count args →
     main E args w
     = (Returned tt,
        World (stdout w2
               ++ header_line (Z.min (Z.of_nat (length filtered)) (count args))
                    (hours args) (region args)
                  :: repeat_char "-" 80
                  :: concat (map (λ '(i, video), entry_lines i video)
                               (enumerate 0 (take (Z.to_nat (count args)) filtered))))
          (requests w2))).
Proof.
  intros Hkey Htruthy Hbuild Hfetch Hfilter Hne.
  pose proof (main_pipeline E args key yt w fetched w1 filtered w2
                Hkey Htruthy Hbuild Hfetch Hfilter Hne) as Hmain.
  split; [|split; [exact Hmain|]].
  - by apply filter_videos_by_time_returned in Hfilter as [_ ->].
  - intros Hcount. rewrite Hmain.
    by apply (display_videos_prints filtered (count args) (hours args) (region args) w2).
Qed.

Lemma main_display_count_after_filter_witness :
  let E := env_2024 (serving fetched_example) in
  let filtered := [video_midnight; video_boundary] in
  filtered
  = filter (λ v, is_recent E (utcnow E - hours args_top_one * US_PER_HOUR) v = true)
      fetched_example
  ∧ main E args_top_one empty_world
    = display_videos filtered (count args_top_one) (hours args_top_one)
        (region args_top_one) world_after_fetch
  ∧ (0 ≤ count args_top_one →
     main E args_top_one empty_world
     = (Returned tt,
        World (stdout world_after_fetch
               ++ header_line (Z.min (Z.of_nat (length filtered)) (count args_top_one))
                    (hours args_top_one) (region args_top_one)
                  :: repeat_char "-" 80
                  :: concat (map (λ '(i, video), entry_lines i video)
                               (enumerate 0 (take (Z.to_nat (count args_top_one)) filtered))))
          (requests world_after_fetch))).
Proof.
  apply (main_display_count_after_filter (env_2024 (serving fetched_example))
           args_top_one "key" (serving fetched_example) empty_world
           fetched_example world_after_fetch
           [video_midnight; video_boundary] world_after_fetch).
  - reflexivity.
  - reflexivity.
  - reflexivity.
  - reflexivity.
  - vm_compute. reflexivity.
  - discriminate.
Defined.

(** ** Further properties of the time filter *)

(** One turn of the loop, whatever its outcome, executes no request and
    prints the video's diagnostic if it has one and nothing else. *)
Lemma filter_step_world E th acc v w o w' :
  filter_step E th acc v w = (o, w') →
  requests w' = requests w
  ∧ stdout w' = stdout w ++ option_list (diagnostic E v).
Proof.
  unfold filter_step, diagnostic.
  destruct (publishedAt (get_snippet v)) as [s|];
    [|intros [= <- <-]; by rewrite app_nil_r].
  destruct (truthy s); [|intros [= <- <-]; by rewrite app_nil_r].
  unfold try_except, bind, lift.
  destruct (fromisoformat E (normalize_zulu s)) as [[t|t]|e]; simpl.
  - destruct (th <=? t); intros [= <- <-]; by rewrite app_nil_r.
  - intros [= <- <-]. by rewrite app_nil_r.
  - destruct (exn_class_eqb (exn_cls e) ValueError); intros [= <- <-]; simpl;
      [done|by rewrite app_nil_r].
Qed.

Lemma filter_loop_requests E th videos acc w o w' :
  for_each videos acc (filter_step E th) w = (o, w') →
  requests w' = requests w ∧ ∃ lines, stdout w' = stdout w ++ lines.
Proof.
  revert acc w. induction videos as [|v videos IH]; intros acc w; simpl.
  - intros [= <- <-]. split; [done|]. exists []. by rewrite app_nil_r.
  - unfold bind.
    destruct (filter_step E th acc v w) as [[acc1|e] w1] eqn:Hstep;
      apply filter_step_world in Hstep as [Hreq Hout].
    + intros Hloop. apply IH in Hloop as [Hreq' [lines Hout']].
      split; [congruence|]. exists (option_list (diagnostic E v) ++ lines).
      by rewrite Hout', Hout, <- app_assoc.
    + intros [= <- <-]. split; [done|]. by eexists.
Qed.

Lemma filter_loop_diagnostics E th videos acc w out w' :
  for_each videos acc (filter_step E th) w = (Returned out, w') →
  stdout w' = stdout w ++ omap (diagnostic E) videos.
Proof.
  revert acc w. induction videos as [|v videos IH]; intros acc w; simpl.
  - intros [= <- <-]. by rewrite app_nil_r.
  - unfold bind.
    destruct (filter_step E th acc v w) as [[acc1|e] w1] eqn:Hstep; [|discriminate].
    apply filter_step_world in Hstep as [_ Hout].
    intros Hloop. apply IH in Hloop as ->. rewrite Hout, <- app_assoc. f_equal.
    by destruct (diagnostic E v).
Qed.

Lemma filter_videos_by_time_loop E videos hours w th :
  datetime_sub_hours (utcnow E) (default HOURS_TO_FILTER hours) = Returned th →
  filter_videos_by_time E videos hours w = for_each videos [] (filter_step E th) w.
Proof. intros Hth. unfold filter_videos_by_time, bind, lift. by rewrite Hth. Qed.

Lemma sublist_filter_impl {A} (P Q : A → Prop)
    `{!∀ x, Decision (P x)} `{!∀ x, Decision (Q x)} (l : list A) :
  (∀ x, P x → Q x) → filter P l `sublist_of` filter Q l.
Proof.
  intros Himpl. induction l as [|x l IH]; [done|].
  destruct (decide (P x)) as [HP|HP].
  - rewrite (filter_cons_True P) by done.
    rewrite (filter_cons_True Q) by auto. by constructor.
  - rewrite (filter_cons_False P) by done.
    destruct (decide (Q x)).
    + rewrite (filter_cons_True Q) by done. by constructor.
    + by rewrite (filter_cons_False Q) by done.
Qed.

Lemma filter_is_recent_all E th (videos : list Video) :
  Forall (λ v, is_recent E th v = true) (filter (λ v, is_recent E th v = true) videos).
Proof. apply Forall_forall. intros v Hv. by apply list_elem_of_filter in Hv as [? _]. Qed.

(** X1: whenever [filter_videos_by_time] returns, it has returned exactly
    the videos of the input whose timestamp parses into an aware instant at
    or after [now - hours], in the order of the input; it has printed one
    diagnostic for each video whose timestamp was rejected, in the order of
    the input, and nothing else; and it has executed no request. *)
Theorem filter_videos_by_time_exact E videos hours w out w' :
  filter_videos_by_time E videos hours w = (Returned out, w') →
  out = filter (λ v, is_recent E (utcnow E - default HOURS_TO_FILTER hours * US_PER_HOUR) v
                     = true) videos
  ∧ stdout w' = stdout w ++ omap (diagnostic E) videos
  ∧ requests w' = requests w.
Proof.
  intros Hrun.
  destruct (filter_videos_by_time_returned E videos hours w out w' Hrun) as [Hth ->].
  split; [done|].
  rewrite (filter_videos_by_time_loop E videos hours w _ Hth) in Hrun.
  split; [by eapply filter_loop_diagnostics|].
  by apply filter_loop_requests in Hrun as [? _].
Qed.

Lemma filter_videos_by_time_exact_witness :
  let E := env_2024 (serving []) in
  let videos := [video_old; video_midnight; video_malformed; video_untimed; video_boundary] in
  let w' := World [parse_error_line "x+00:00" video_malformed
                     (Exn ValueError "Invalid isoformat string: 'x+00:00'")] [] in
  [video_midnight; video_boundary]
  = filter (λ v, is_recent E (utcnow E - default HOURS_TO_FILTER (Some 12) * US_PER_HOUR) v
                 = true) videos
  ∧ stdout w' = stdout empty_world ++ omap (diagnostic E) videos
  ∧ requests w' = requests empty_world.
Proof.
  apply (filter_videos_by_time_exact (env_2024 (serving []))
           [video_old; video_midnight; video_malformed; video_untimed; video_boundary]
           (Some 12) empty_world [video_midnight; video_boundary]).
  vm_compute. reflexivity.
Defined.

(** X2: [filter_videos_by_time] executes no request, whether it returns or
    raises, and what was on standard output before the call is still there,
    at the front. *)
Theorem filter_videos_by_time_no_requests E videos hours w :
  requests (snd (filter_videos_by_time E videos hours w)) = requests w
  ∧ ∃ lines, stdout (snd (filter_videos_by_time E videos hours w)) = stdout w ++ lines.
Proof.
  unfold filter_videos_by_time, bind, lift.
  destruct (datetime_sub_hours _ _) as [th|e]; simpl.
  - destruct (for_each videos [] (filter_step E th) w) as [o w'] eqn:Hloop.
    by apply filter_loop_requests in Hloop.
  - split; [done|]. exists []. by rewrite app_nil_r.
Qed.



(** X3: a timestamp without an offset stops the whole filter.  When the
    threshold is a datetime, the videos before it can be handled, and one
    video carries a timestamp that parses into a naive datetime, the call
    raises [TypeError] from the comparison, for whatever follows that
    video; the videos collected so far are lost and no request has been
    executed. *)
Theorem filter_videos_by_time_naive_raises E pre v post hours w th s t :
  datetime_sub_hours (utcnow E) (default HOURS_TO_FILTER hours) = Returned th →
  Forall (comparable E) pre →
  publishedAt (get_snippet v) = Some s → truthy s = true →
  fromisoformat E (normalize_zulu s) = Returned (Naive t) →
  ∃ w',
    filter_videos_by_time E (pre ++ v :: post) hours w
    = (Raised (Exn TypeError "can't compare offset-naive and offset-aware datetimes"), w')
    ∧ requests w' = requests w.
Proof.
  intros Hth Hpre Hs Htruthy Hparse.
  rewrite (filter_videos_by_time_loop E _ hours w th Hth), for_each_app.
  destruct (filter_loop_total E th pre [] w Hpre) as (out1 & w1 & Hloop & Hreq).
  exists w1. split; [|done].
  unfold bind at 1. rewrite Hloop. simpl. unfold bind at 1.
  unfold filter_step. rewrite Hs, Htruthy.
  unfold try_except, bind, lift. by rewrite Hparse.
Qed.

Lemma filter_videos_by_time_naive_raises_witness :
  ∃ w',
    filter_videos_by_time (env_2024 (serving []))
      ([video_midnight; video_malformed] ++ video_naive :: [video_boundary])
      (Some 12) empty_world
    = (Raised (Exn TypeError "can't compare offset-naive and offset-aware datetimes"), w')
    ∧ requests w' = requests empty_world.
Proof.
  apply (filter_videos_by_time_naive_raises (env_2024 (serving []))
           [video_midnight; video_malformed] video_naive [video_boundary] (Some 12)
           empty_world (instant 2023 12 31 18 0 0 0) "2024-01-01T00:00:00"
           (instant 2024 1 1 0 0 0 0)).
  - vm_compute. reflexivity.
  - constructor; [|constructor; [|constructor]]; intros s Hs _; injection Hs as <-.
    + left. eexists. vm_compute. reflexivity.
    + right. eexists. vm_compute. reflexivity.
  - reflexivity.
  - reflexivity.
  - vm_compute. reflexivity.
Defined.

(** X4: a window that puts the threshold outside the range of [datetime]
    (before year 1 or after year 9999) makes [filter_videos_by_time] raise
    [OverflowError] before it looks at any video: nothing is printed and
    nothing is returned, whatever the videos. *)
Theorem filter_videos_by_time_overflow E videos h w :
  utcnow E - h * US_PER_HOUR < 0 ∨ MAX_INSTANT ≤ utcnow E - h * US_PER_HOUR →
  ∃ e, exn_cls e = OverflowError
       ∧ filter_videos_by_time E videos (Some h) w = (Raised e, w).
Proof.
  intros Hrange. eexists. split; [|].
  2:{ unfold filter_videos_by_time, bind, lift, datetime_sub_hours. simpl.
      destruct (Z.leb_spec 0 (utcnow E - h * US_PER_HOUR));
        destruct (Z.ltb_spec (utcnow E - h * US_PER_HOUR) MAX_INSTANT);
        simpl; try reflexivity; lia. }
  reflexivity.
Qed.

Lemma filter_videos_by_time_overflow_witness :
  ∃ e, exn_cls e = OverflowError
       ∧ filter_videos_by_time (env_2024 (serving [])) [video_midnight] (Some 100000000)
           empty_world
         = (Raised e, empty_world).
Proof.
  apply (filter_videos_by_time_overflow (env_2024 (serving [])) [video_midnight]
           100000000 empty_world).
  left. vm_compute. reflexivity.
Defined.

(** X5: filtering is idempotent.  What one call returned goes through a
    second call with the same window at the same instant unchanged, and the
    second call prints nothing. *)
Theorem filter_videos_by_time_idempotent E videos hours w out w' :
  filter_videos_by_time E videos hours w = (Returned out, w') →
  ∀ w2, filter_videos_by_time E out hours w2 = (Returned out, w2).
Proof.
  intros Hrun w2.
  apply filter_videos_by_time_returned in Hrun as [Hth ->].
  rewrite (filter_videos_by_time_loop E _ hours w2 _ Hth).
  rewrite filter_loop_all_recent; [done|apply filter_is_recent_all].
Qed.

Lemma filter_videos_by_time_idempotent_witness :
  filter_videos_by_time (env_2024 (serving [])) [video_midnight; video_boundary]
    (Some 12) world_after_fetch
  = (Returned [video_midnight; video_boundary], world_after_fetch).
Proof.
  refine (filter_videos_by_time_idempotent (env_2024 (serving []))
            [video_old; video_midnight; video_malformed; video_boundary] (Some 12)
            empty_world [video_midnight; video_boundary]
            (World [parse_error_line "x+00:00" video_malformed
                      (Exn ValueError "Invalid isoformat string: 'x+00:00'")] [])
            _ world_after_fetch).
  vm_compute. reflexivity.
Defined.



(** X7: a longer window keeps more.  For [h1 <= h2], what the call with
    [h1] returns is a subsequence of what the call with [h2] returns on the
    same videos at the same instant, and both calls print the same
    diagnostics. *)
Theorem filter_videos_by_time_window_monotone E videos h1 h2 w out1 w1 out2 w2 :
  h1 ≤ h2 →
  filter_videos_by_time E videos (Some h1) w = (Returned out1, w1) →
  filter_videos_by_time E videos (Some h2) w = (Returned out2, w2) →
  out1 `sublist_of` out2 ∧ stdout w1 = stdout w2.
Proof.
  intros Hle Hrun1 Hrun2.
  destruct (filter_videos_by_time_returned E videos _ w out1 w1 Hrun1) as [Hth1 ->].
  destruct (filter_videos_by_time_returned E videos _ w out2 w2 Hrun2) as [Hth2 ->].
  split.
  - apply sublist_filter_impl. intros v. unfold is_recent. simpl.
    destruct (published_instant E v) as [t|]; [|done].
    rewrite !Z.leb_le. unfold US_PER_HOUR, US_PER_SECOND. lia.
  - rewrite (filter_videos_by_time_loop E _ _ _ _ Hth1) in Hrun1.
    rewrite (filter_videos_by_time_loop E _ _ _ _ Hth2) in Hrun2.
    apply filter_loop_diagnostics in Hrun1, Hrun2. congruence.
Qed.

Lemma filter_videos_by_time_window_monotone_witness :
  [video_midnight] `sublist_of` [video_midnight; video_boundary]
  ∧ stdout empty_world = stdout empty_world.
Proof.
  apply (filter_videos_by_time_window_monotone (env_2024 (serving []))
           [video_old; video_midnight; video_boundary] 6 12 empty_world
           [video_midnight] empty_world [video_midnight; video_boundary] empty_world).
  - lia.
  - vm_compute. reflexivity.
  - vm_compute. reflexivity.
Defined.

(** ** Further properties of the fetcher *)

Lemma fetch_popular_videos_world yt region_code max_results w o w' :
  fetch_popular_videos yt region_code max_results w = (o, w') →
  requests w' = requests w ++ [popular_request region_code max_results]
  ∧ ∃ lines, stdout w' = stdout w ++ lines.
Proof.
  unfold fetch_popular_videos, try_except, bind, execute, popular_request.
  destruct (yt _) as [resp|e]; simpl.
  - intros [= <- <-]. split; [done|]. exists []. by rewrite app_nil_r.
  - destruct (exn_class_eqb (exn_cls e) HttpError); intros [= <- <-]; simpl.
    + split; [done|]. by eexists.
    + split; [done|]. exists []. by rewrite app_nil_r.
Qed.

(** X8: every call of [fetch_popular_videos] executes exactly one request,
    whatever the handle answers: the most-popular chart with the parts
    [snippet,contentDetails,statistics], for the region code and the cap it
    was given. *)
Theorem fetch_popular_videos_one_request yt region_code max_results w :
  requests (snd (fetch_popular_videos yt region_code max_results w))
  = requests w
    ++ [{| part := "snippet,contentDetails,statistics"; chart := "mostPopular";
           regionCode := region_code; maxResults := max_results |}].
Proof.
  destruct (fetch_popular_videos yt region_code max_results w) as [o w'] eqn:Hrun.
  apply fetch_popular_videos_world in Hrun as [Hreq _]. exact Hreq.
Qed.

(** X9: when the request raises an [HttpError], [fetch_popular_videos]
    prints one line, [An API error occurred: ] followed by the error's
    text, and returns the empty list. *)
Theorem fetch_popular_videos_swallows_http_error yt region_code max_results w e :
  yt (popular_request region_code max_results) = Raised e →
  exn_cls e = HttpError →
  fetch_popular_videos yt region_code max_results w
  = (Returned [],
     World (stdout w ++ ["An API error occurred: " +:+ exn_msg e])
       (requests w ++ [popular_request region_code max_results])).
Proof. intros Hyt Hcls. by apply fetch_popular_videos_http_error. Qed.

Lemma fetch_popular_videos_swallows_http_error_witness :
  fetch_popular_videos forbidden "US" 25 empty_world
  = (Returned [],
     World (stdout empty_world
            ++ ["An API error occurred: "
                +:+ exn_msg (Exn HttpError "<HttpError 403 quotaExceeded>")])
       (requests empty_world ++ [popular_request "US" 25])).
Proof.
  apply (fetch_popular_videos_swallows_http_error forbidden "US" 25 empty_world
           (Exn HttpError "<HttpError 403 quotaExceeded>")).
  - reflexivity.
  - reflexivity.
Defined.

(** X10: when the request is answered, [fetch_popular_videos] returns the
    response's [items] as they are and the empty list when the response has
    no [items], and prints nothing. *)
Theorem fetch_popular_videos_items yt region_code max_results w resp :
  yt (popular_request region_code max_results) = Returned resp →
  fetch_popular_videos yt region_code max_results w
  = (Returned (match items resp with Some videos => videos | None => [] end),
     World (stdout w) (requests w ++ [popular_request region_code max_results])).
Proof.
  intros Hyt. rewrite (fetch_popular_videos_returned yt _ _ w resp Hyt).
  by destruct (items resp).
Qed.

Lemma fetch_popular_videos_items_witness :
  fetch_popular_videos (fun _ => Returned {| items := None |}) "GB" 10 empty_world
  = (Returned (match items {| items := None |} with Some videos => videos | None => [] end),
     World (stdout empty_world) (requests empty_world ++ [popular_request "GB" 10])).
Proof.
  apply (fetch_popular_videos_items (fun _ => Returned {| items := None |}) "GB" 10
           empty_world {| items := None |}).
  reflexivity.
Defined.



(** ** Further properties of the presenter *)

Lemma length_entries (l : list (Z * Video)) :
  length (concat (map (λ '(i, video), entry_lines i video) l)) = (2 * length l)%nat.
Proof.
  induction l as [|[i v] l IH]; [done|]. simpl. rewrite IH. lia.
Qed.

(** For a list that is not empty, whatever the count: the header, the rule
    and the entries of [videos[:n]]. *)
Lemma display_videos_lines videos count display_hours display_region w :
  videos ≠ [] →
  display_videos videos count display_hours display_region w
  = (Returned tt,
     World (stdout w ++ display_lines videos count display_hours display_region)
       (requests w)).
Proof.
  intros Hne. destruct videos as [|v videos]; [done|].
  unfold display_videos, display_lines.
  unfold bind at 1 2, print at 1 2. simpl stdout. simpl requests.
  rewrite (for_each_print _ _ (λ '(i, video), entry_lines i video)).
  - simpl. by rewrite <- !app_assoc.
  - intros [] [i video] w0. unfold bind, print, entry_lines. simpl.
    by rewrite <- app_assoc.
Qed.

(** X12: for a list that is not empty and a count that is not negative,
    [display_videos] prints the header stating
    [n = min(len(videos), count)], the rule of 80 dashes, and two lines for
    each of the first [n] videos; the entry at position [k] belongs to the
    video at position [k] of the input and is numbered [k + 1]. *)
Theorem display_videos_nonnegative_count videos count display_hours display_region w :
  videos ≠ [] → 0 ≤ count →
  let n := Z.min (Z.of_nat (length videos)) count in
  let shown := enumerate 0 (take (Z.to_nat count) videos) in
  display_videos videos count display_hours display_region w
  = (Returned tt,
     World (stdout w
            ++ header_line n display_hours display_region
               :: repeat_char "-" 80
               :: concat (map (λ '(i, video), entry_lines i video) shown))
       (requests w))
  ∧ Z.of_nat (length shown) = n
  ∧ (∀ k v, videos !! k = Some v → Z.of_nat k < count →
            shown !! k = Some (Z.of_nat k, v)).
Proof.
  intros Hne Hcount n shown.
  destruct (display_videos_prints videos count display_hours display_region w Hne Hcount)
    as [Hrun Hlen].
  split; [exact Hrun|]. split; [exact Hlen|].
  intros k v Hk Hlt. unfold shown.
  rewrite enumerate_lookup, lookup_take_lt by lia. by rewrite Hk.
Qed.

Lemma display_videos_nonnegative_count_witness :
  let videos := [video_midnight; video_boundary; video_old] in
  let n := Z.min (Z.of_nat (length videos)) 2 in
  let shown := enumerate 0 (take (Z.to_nat 2) videos) in
  display_videos videos 2 12 "US" empty_world
  = (Returned tt,
     World (stdout empty_world
            ++ header_line n 12 "US"
               :: repeat_char "-" 80
               :: concat (map (λ '(i, video), entry_lines i video) shown))
       (requests empty_world))
  ∧ Z.of_nat (length shown) = n
  ∧ (∀ k v, videos !! k = Some v → Z.of_nat k < 2 →
            shown !! k = Some (Z.of_nat k, v)).
Proof.
  apply (display_videos_nonnegative_count
           [video_midnight; video_boundary; video_old] 2 12 "US" empty_world).
  - discriminate.
  - lia.
Defined.

(** X13: for a list that is not empty and a negative count, the header of
    [display_videos] states the count itself, and the entries printed are
    those of the input without its last [-count] videos (none when the
    input has no more than that). *)
Theorem display_videos_negative_count_drops_last videos count display_hours display_region w :
  videos ≠ [] → count < 0 →
  display_videos videos count display_hours display_region w
  = (Returned tt,
     World (stdout w
            ++ header_line count display_hours display_region
               :: repeat_char "-" 80
               :: concat (map (λ '(i, video), entry_lines i video)
                            (enumerate 0
                               (take (length videos - Z.to_nat (- count)) videos))))
       (requests w)).
Proof.
  intros Hne Hcount. rewrite display_videos_lines by done.
  unfold display_lines. rewrite Z.min_r by lia.
  unfold slice_to. destruct (Z.leb_spec 0 count); [lia|].
  replace (Z.to_nat (Z.of_nat (length videos) + count))
    with (length videos - Z.to_nat (- count))%nat by lia.
  reflexivity.
Qed.

Lemma display_videos_negative_count_drops_last_witness :
  display_videos [video_midnight; video_boundary; video_old] (-2) 12 "US" empty_world
  = (Returned tt,
     World (stdout empty_world
            ++ header_line (-2) 12 "US"
               :: repeat_char "-" 80
               :: concat (map (λ '(i, video), entry_lines i video)
                            (enumerate 0
                               (take (length [video_midnight; video_boundary; video_old]
                                      - Z.to_nat (- -2))
                                  [video_midnight; video_boundary; video_old]))))
       (requests empty_world)).
Proof.
  apply (display_videos_negative_count_drops_last
           [video_midnight; video_boundary; video_old] (-2) 12 "US" empty_world).
  - discriminate.
  - lia.
Defined.

Lemma display_videos_world videos count display_hours display_region w :
  ∃ lines,
    display_videos videos count display_hours display_region w
    = (Returned tt, World (stdout w ++ lines) (requests w))
    ∧ (1 ≤ length lines ≤ 2 + 2 * length videos)%nat.
Proof.
  destruct videos as [|v videos].
  - exists ["No videos found matching the criteria."]. split; [done|]. simpl. lia.
  - eexists. split; [by apply display_videos_lines|].
    unfold display_lines. simpl length.
    rewrite length_entries, length_enumerate.
    assert (length (slice_to (v :: videos)
                      (Z.min (Z.of_nat (S (length videos))) count))
            ≤ S (length videos))%nat; [|lia].
    unfold slice_to. destruct (0 <=? _); rewrite length_take; simpl; lia.
Qed.


(** ** Further properties of the orchestrator *)

Lemma filter_videos_by_time_world E videos hours w o w' :
  filter_videos_by_time E videos hours w = (o, w') →
  requests w' = requests w ∧ ∃ lines, stdout w' = stdout w ++ lines.
Proof.
  unfold filter_videos_by_time, bind, lift.
  destruct (datetime_sub_hours _ _) as [th|e].
  - apply filter_loop_requests.
  - intros [= <- <-]. split; [done|]. exists []. by rewrite app_nil_r.
Qed.

(** With a credential and a handle, [main] goes on from the fetch. *)
Lemma main_with_service E args key yt w :
  API_KEY E = Some key → truthy key = true →
  build E API_SERVICE_NAME API_VERSION key = Some yt →
  main E args w
  = match fetch_popular_videos yt (region args) (fetch args) w with
    | (Returned [], w1) =>
        print ("No popular videos found for region " +:+ region args +:+ ".") w1
    | (Returned (v :: videos), w1) =>
        match filter_videos_by_time E (v :: videos) (Some (hours args)) w1 with
        | (Returned [], w2) =>
            print ("No videos found published in the last " +:+ str_int (hours args)
                   +:+ " hours for region " +:+ region args +:+ ".") w2
        | (Returned (f :: filtered), w2) =>
            display_videos (f :: filtered) (count args) (hours args) (region args) w2
        | (Raised e, w2) => (Raised e, w2)
        end
    | (Raised e, w1) => (Raised e, w1)
    end.
Proof.
  intros Hkey Htruthy Hbuild.
  unfold main, bind at 1, try_except, bind at 1, get_youtube_service.
  rewrite Hkey, Htruthy, Hbuild. unfold ret at 1 2. unfold bind at 1.
  destruct (fetch_popular_videos yt (region args) (fetch args) w)
    as [[[|v videos]|e] w1]; [done| |done].
  unfold bind at 1.
  by destruct (filter_videos_by_time E (v :: videos) (Some (hours args)) w1)
    as [[[|f filtered]|e] w2].
Qed.

Lemma main_falsy_handle_prints E args key w :
  API_KEY E = Some key → truthy key = true →
  build E API_SERVICE_NAME API_VERSION key = None →
  main E args w
  = (Returned tt,
     World (stdout w ++ ["Failed to get YouTube service. Exiting."]) (requests w)).
Proof.
  intros Hkey Htruthy Hbuild.
  unfold main, bind at 1, try_except, bind at 1, get_youtube_service.
  by rewrite Hkey, Htruthy, Hbuild.
Qed.

(** X15: with a credential but a handle that tests false, [main] prints
    that it failed to get the service and returns without any request. *)
Theorem main_falsy_service E args key w :
  API_KEY E = Some key → truthy key = true →
  build E API_SERVICE_NAME API_VERSION key = None →
  main E args w
  = (Returned tt,
     World (stdout w ++ ["Failed to get YouTube service. Exiting."]) (requests w)).
Proof.
  intros Hkey Htruthy Hbuild.
  exact (main_falsy_handle_prints E args key w Hkey Htruthy Hbuild).
Qed.

Lemma main_falsy_service_witness :
  main env_falsy_handle default_args empty_world
  = (Returned tt,
     World (stdout empty_world ++ ["Failed to get YouTube service. Exiting."])
       (requests empty_world)).
Proof.
  apply (main_falsy_service env_falsy_handle default_args "key" empty_world).
  - reflexivity.
  - reflexivity.
  - reflexivity.
Defined.

(** X16: when the API answers the request with an [HttpError], [main]
    prints the API error and then that no popular videos were found for the
    region, and returns; the one request has been executed and nothing is
    filtered or displayed. *)
Theorem main_http_error E args key yt w e :
  API_KEY E = Some key → truthy key = true →
  build E API_SERVICE_NAME API_VERSION key = Some yt →
  yt (popular_request (region args) (fetch args)) = Raised e →
  exn_cls e = HttpError →
  main E args w
  = (Returned tt,
     World (stdout w
            ++ ["An API error occurred: " +:+ exn_msg e;
                "No popular videos found for region " +:+ region args +:+ "."])
       (requests w ++ [popular_request (region args) (fetch args)])).
Proof.
  intros Hkey Htruthy Hbuild Hyt Hcls.
  rewrite (main_with_service E args key yt w Hkey Htruthy Hbuild).
  rewrite (fetch_popular_videos_http_error yt _ _ w e Hyt Hcls).
  unfold print. simpl. by rewrite <- app_assoc.
Qed.

Lemma main_http_error_witness :
  main (env_2024 forbidden) default_args empty_world
  = (Returned tt,
     World (stdout empty_world
            ++ ["An API error occurred: "
                +:+ exn_msg (Exn HttpError "<HttpError 403 quotaExceeded>");
                "No popular videos found for region " +:+ region default_args +:+ "."])
       (requests empty_world
        ++ [popular_request (region default_args) (fetch default_args)])).
Proof.
  apply (main_http_error (env_2024 forbidden) default_args "key" forbidden empty_world
           (Exn HttpError "<HttpError 403 quotaExceeded>")).
  - reflexivity.
  - reflexivity.
  - reflexivity.
  - reflexivity.
  - reflexivity.
Defined.

(** X17: when the response has no [items] or an empty list of them, [main]
    prints that no popular videos were found for the region and returns
    after its one request. *)
Theorem main_no_items E args key yt w resp :
  API_KEY E = Some key → truthy key = true →
  build E API_SERVICE_NAME API_VERSION key = Some yt →
  yt (popular_request (region args) (fetch args)) = Returned resp →
  items resp = None ∨ items resp = Some [] →
  main E args w
  = (Returned tt,
     World (stdout w ++ ["No popular videos found for region " +:+ region args +:+ "."])
       (requests w ++ [popular_request (region args) (fetch args)])).
Proof.
  intros Hkey Htruthy Hbuild Hyt Hitems.
  rewrite (main_with_service E args key yt w Hkey Htruthy Hbuild).
  rewrite (fetch_popular_videos_returned yt _ _ w resp Hyt).
  by destruct Hitems as [-> | ->].
Qed.

Lemma main_no_items_witness :
  main (env_2024 (serving [])) default_args empty_world
  = (Returned tt,
     World (stdout empty_world
            ++ ["No popular videos found for region " +:+ region default_args +:+ "."])
       (requests empty_world
        ++ [popular_request (region default_args) (fetch default_args)])).
Proof.
  apply (main_no_items (env_2024 (serving [])) default_args "key" (serving [])
           empty_world {| items := Some [] |}).
  - reflexivity.
  - reflexivity.
  - reflexivity.
  - reflexivity.
  - right. reflexivity.
Defined.

(** X18: when videos were fetched and the time filter returns none of them,
    [main] prints the diagnostics of the filter, one for each rejected
    timestamp, and then that no videos were published in the last [hours]
    hours for the region; it returns without displaying anything. *)
Theorem main_nothing_recent E args key yt w resp fetched w2 :
  API_KEY E = Some key → truthy key = true →
  build E API_SERVICE_NAME API_VERSION key = Some yt →
  yt (popular_request (region args) (fetch args)) = Returned resp →
  items resp = Some fetched → fetched ≠ [] →
  filter_videos_by_time E fetched (Some (hours args))
    (World (stdout w) (requests w ++ [popular_request (region args) (fetch args)]))
  = (Returned [], w2) →
  main E args w
  = (Returned tt,
     World (stdout w ++ omap (diagnostic E) fetched
            ++ ["No videos found published in the last " +:+ str_int (hours args)
                +:+ " hours for region " +:+ region args +:+ "."])
       (requests w ++ [popular_request (region args) (fetch args)])).
Proof.
  intros Hkey Htruthy Hbuild Hyt Hitems Hne Hfilter.
  rewrite (main_with_service E args key yt w Hkey Htruthy Hbuild).
  rewrite (fetch_popular_videos_returned yt _ _ w resp Hyt), Hitems. simpl.
  destruct fetched as [|v fetched]; [done|].
  fold (popular_request (region args) (fetch args)). rewrite Hfilter.
  pose proof (filter_videos_by_time_world _ _ _ _ _ _ Hfilter) as [Hreq _].
  destruct (filter_videos_by_time_returned _ _ _ _ _ _ Hfilter) as [Hth _].
  rewrite (filter_videos_by_time_loop _ _ _ _ _ Hth) in Hfilter.
  apply filter_loop_diagnostics in Hfilter.
  unfold print. rewrite Hreq, Hfilter. simpl. by rewrite <- app_assoc.
Qed.

Lemma main_nothing_recent_witness :
  let E := env_2024 (serving [video_old; video_malformed]) in
  main E default_args empty_world
  = (Returned tt,
     World (stdout empty_world ++ omap (diagnostic E) [video_old; video_malformed]
            ++ ["No videos found published in the last " +:+ str_int (hours default_args)
                +:+ " hours for region " +:+ region default_args +:+ "."])
       (requests empty_world
        ++ [popular_request (region default_args) (fetch default_args)])).
Proof.
  apply (main_nothing_recent (env_2024 (serving [video_old; video_malformed]))
           default_args "key" (serving [video_old; video_malformed]) empty_world
           {| items := Some [video_old; video_malformed] |} [video_old; video_malformed]
           (World [parse_error_line "x+00:00" video_malformed
                     (Exn ValueError "Invalid isoformat string: 'x+00:00'")]
              [popular_request "US" 25])).
  - reflexivity.
  - reflexivity.
  - reflexivity.
  - reflexivity.
  - reflexivity.
  - discriminate.
  - vm_compute. reflexivity.
Defined.

(** X19: an exception of the request that is not an [HttpError] leaves
    [main] too: [main] has no handler around the fetch, prints nothing and
    does not return. *)
Theorem main_transport_error_propagates E args key yt w e :
  API_KEY E = Some key → truthy key = true →
  build E API_SERVICE_NAME API_VERSION key = Some yt →
  yt (popular_request (region args) (fetch args)) = Raised e →
  exn_class_eqb (exn_cls e) HttpError = false →
  main E args w
  = (Raised e, World (stdout w) (requests w ++ [popular_request (region args) (fetch args)])).
Proof.
  intros Hkey Htruthy Hbuild Hyt Hcls.
  rewrite (main_with_service E args key yt w Hkey Htruthy Hbuild).
  unfold fetch_popular_videos, try_except, bind, execute.
  fold (popular_request (region args) (fetch args)). by rewrite Hyt, Hcls.
Qed.

Lemma main_transport_error_propagates_witness :
  let e := Exn (TransportError "httplib2.error.ServerNotFoundError")
               "Unable to find the server at youtube.googleapis.com" in
  main (env_2024 unreachable) default_args empty_world
  = (Raised e,
     World (stdout empty_world)
       (requests empty_world
        ++ [popular_request (region default_args) (fetch default_args)])).
Proof.
  apply (main_transport_error_propagates (env_2024 unreachable) default_args "key"
           unreachable empty_world).
  - reflexivity.
  - reflexivity.
  - reflexivity.
  - reflexivity.
  - reflexivity.
Defined.

Lemma main_no_credential_prints E args w :
  API_KEY E = None ∨ (∃ key, API_KEY E = Some key ∧ truthy key = false) →
  main E args w
  = (Returned tt,
     World (stdout w
            ++ ["API key not found. Please set YOUTUBE_API_KEY in your .env file or environment."])
       (requests w)).
Proof.
  intros Hkey.
  unfold main, bind at 1, try_except, bind at 1, get_youtube_service.
  by destruct Hkey as [-> | (key & -> & ->)].
Qed.

(** Whatever [main] does, it executes the one request of the fetch or none,
    it keeps what was on standard output, and it prints before it returns. *)
Lemma main_world E args w o w' :
  main E args w = (o, w') →
  (requests w' = requests w
   ∨ requests w' = requests w ++ [popular_request (region args) (fetch args)])
  ∧ ∃ lines, stdout w' = stdout w ++ lines ∧ (o = Returned tt → lines ≠ []).
Proof.
  intros Hrun.
  destruct (API_KEY E) as [key|] eqn:Hkey; [destruct (truthy key) eqn:Htruthy|];
    [destruct (build E API_SERVICE_NAME API_VERSION key) as [yt|] eqn:Hbuild| |].
  - rewrite (main_with_service E args key yt w Hkey Htruthy Hbuild) in Hrun.
    destruct (fetch_popular_videos yt (region args) (fetch args) w)
      as [[[|v videos]|e] w1] eqn:Hfetch;
      apply fetch_popular_videos_world in Hfetch as [Hreq1 [lines1 Hout1]].
    + injection Hrun as <- <-. simpl. split; [by right|].
      eexists. rewrite Hout1, <- app_assoc. split; [done|]. by destruct lines1.
    + destruct (filter_videos_by_time E (v :: videos) (Some (hours args)) w1)
        as [[[|f filtered]|e] w2] eqn:Hfilter;
        apply filter_videos_by_time_world in Hfilter as [Hreq2 [lines2 Hout2]].
      * injection Hrun as <- <-. simpl. split; [right; congruence|].
        eexists. rewrite Hout2, Hout1, <- !app_assoc. split; [done|].
        by destruct lines1, lines2.
      * destruct (display_videos_world (f :: filtered) (count args) (hours args)
                    (region args) w2) as (lines3 & Hdisplay & Hlen).
        rewrite Hdisplay in Hrun. injection Hrun as <- <-. simpl.
        split; [right; congruence|].
        eexists. rewrite Hout2, Hout1, <- !app_assoc. split; [done|].
        intros _ Hnil. apply (f_equal length) in Hnil.
        rewrite !length_app in Hnil. simpl in Hnil. lia.
      * injection Hrun as <- <-. split; [right; congruence|].
        eexists. rewrite Hout2, Hout1, <- app_assoc. split; [done|discriminate].
    + injection Hrun as <- <-. split; [by right|].
      eexists. split; [done|discriminate].
  - rewrite (main_falsy_handle_prints E args key w Hkey Htruthy Hbuild) in Hrun.
    injection Hrun as <- <-. simpl. split; [by left|]. by eexists.
  - rewrite main_no_credential_prints in Hrun by (right; by exists key).
    injection Hrun as <- <-. simpl. split; [by left|]. by eexists.
  - rewrite main_no_credential_prints in Hrun by (by left).
    injection Hrun as <- <-. simpl. split; [by left|]. by eexists.
Qed.

(** X20: [main] executes at most one request, the one for the region and
    the fetch cap of its arguments, whatever the surroundings and whether
    it returns or raises. *)
Theorem main_at_most_one_request E args w :
  requests (snd (main E args w)) = requests w
  ∨ requests (snd (main E args w))
    = requests w ++ [popular_request (region args) (fetch args)].
Proof.
  destruct (main E args w) as [o w'] eqn:Hrun.
  by apply main_world in Hrun as [? _].
Qed.

(** X21: [main] never returns in silence: whenever it returns, it has added
    at least one line to standard output and kept what was there. *)
Theorem main_returns_after_printing E args w w' :
  main E args w = (Returned tt, w') →
  ∃ lines, lines ≠ [] ∧ stdout w' = stdout w ++ lines.
Proof.
  intros Hrun. apply main_world in Hrun as [_ (lines & Hout & Hne)].
  exists lines. split; [by apply Hne|done].
Qed.

Lemma main_returns_after_printing_witness :
  ∃ lines, lines ≠ []
    ∧ stdout (World ["No popular videos found for region US."] [popular_request "US" 25])
      = stdout empty_world ++ lines.
Proof.
  apply (main_returns_after_printing (env_2024 (serving [])) default_args empty_world).
  reflexivity.
Defined.

(** X22: the rewrite of the final [Z] is stable: a string that does not end
    in [Z] is handed to the parser as it is, and no rewritten string ends
    in [Z], so rewriting twice is rewriting once. *)
Theorem normalize_zulu_idempotent s :
  normalize_zulu (normalize_zulu s) = normalize_zulu s
  ∧ endswith (normalize_zulu s) "Z" = false.
Proof.
  assert (endswith (normalize_zulu s) "Z" = false) as Hends.
  { unfold normalize_zulu. destruct (endswith s "Z") eqn:Hs; [|done].
    apply endswith_zero_offset. }
  split; [|done]. unfold normalize_zulu at 1. by rewrite Hends.
Qed.
